(** * StacApi: assembly of the STAC route table

    A shallow embedding of [stac_fastapi/api/app.py]: the attrs class
    [StacApi], its registration methods, [register_core],
    [add_health_check], [add_route_dependencies] and the post-init hook
    [__attrs_post_init__].

    Python objects that [StacApi] holds a reference to and mutates (the
    settings, the client, the FastAPI application and the router) live in
    a [Store] that the methods thread; the other attributes are plain data
    of the [StacApi] record.  A method is a computation in a small state
    and error monad over the store. *)

From Stdlib Require Import Ascii String List Bool Arith Lia Permutation.
Import ListNotations.
Open Scope string_scope.

Set Implicit Arguments.

(** ** Schemas, request models and endpoints *)

(** The pydantic response models imported by [app.py]. *)
Inductive ResponseModel : Type :=
| LandingPage
| ConformanceClasses
| Item
| ItemCollection
| Collections
| Collection
| Catalog
| Catalogs.

(** [response_class]: the two classes named in [app.py], and any other
    the caller configures. *)
Inductive ResponseClass : Type :=
| JSONResponse
| GeoJSONResponse
| CustomResponse (class_name : string).

(** A request model is a class; the embedding keeps its name and its
    declared fields (field name, declared type). *)
Record RequestModel : Type := {
  model_name : string;
  model_fields : list (string * string)
}.

(** The exports of [stac_fastapi.api.models] that [app.py] imports.  The
    module is not part of the embedded sources, so it is an interface:
    the five fixed request models, and [create_request_model], which
    either returns the class it builds or raises ([None]). *)
Record ModelsModule : Type := {
  EmptyRequest : RequestModel;
  ItemUri : RequestModel;
  CollectionUri : RequestModel;
  CatalogUri : RequestModel;
  ItemCollectionUri : RequestModel;
  create_request_model :
    string -> RequestModel -> option (list (option RequestModel)) ->
    option RequestModel
}.

(** The methods of the core client that [app.py] wraps. *)
Inductive ClientMethod : Type :=
| landing_page
| conformance
| get_item
| post_global_search
| get_global_search
| post_search
| get_search
| all_collections
| all_catalogs
| get_catalog_collections
| get_collection
| get_catalog
| item_collection.

(** A JSON object with string values, as an association list. *)
Definition JSON : Type := list (string * string).

(** A route handler: either [create_async_endpoint(client_method,
    request_model)], kept as the pair it is built from, or a coroutine
    without parameters written in place. *)
Inductive Endpoint : Type :=
| create_async_endpoint (func : ClientMethod) (request_model : RequestModel)
| coroutine (body : unit -> JSON).

(** [fastapi.params.Depends], identified by the callable it wraps. *)
Record Depends : Type := { dependency : string }.

(** A route scope of [route_dependencies]: a dict with a [path] and a
    [method] entry. *)
Record Scope : Type := { scope_path : string; scope_method : string }.

(** ** Routes *)

Module Route.

(** The keyword arguments of [add_api_route] that [app.py] passes,
    with the dependency chain and the tags of the route. *)
Record t : Type := {
  name : string;
  path : string;
  response_model : option ResponseModel;
  response_class : ResponseClass;
  response_model_exclude_unset : bool;
  response_model_exclude_none : bool;
  methods : list string;
  endpoint : Endpoint;
  dependencies : list Depends;
  tags : list string
}.

Definition with_path (r : t) (p : string) : t :=
  {| name := name r; path := p;
     response_model := response_model r;
     response_class := response_class r;
     response_model_exclude_unset := response_model_exclude_unset r;
     response_model_exclude_none := response_model_exclude_none r;
     methods := methods r; endpoint := endpoint r;
     dependencies := dependencies r; tags := tags r |}.

Definition with_tags (r : t) (l : list string) : t :=
  {| name := name r; path := path r;
     response_model := response_model r;
     response_class := response_class r;
     response_model_exclude_unset := response_model_exclude_unset r;
     response_model_exclude_none := response_model_exclude_none r;
     methods := methods r; endpoint := endpoint r;
     dependencies := dependencies r; tags := l |}.

Definition with_dependencies (r : t) (d : list Depends) : t :=
  {| name := name r; path := path r;
     response_model := response_model r;
     response_class := response_class r;
     response_model_exclude_unset := response_model_exclude_unset r;
     response_model_exclude_none := response_model_exclude_none r;
     methods := methods r; endpoint := endpoint r;
     dependencies := d; tags := tags r |}.

(** The (path, method) pairs a route answers. *)
Definition keys (r : t) : list (string * string) :=
  map (fun m => (path r, m)) (methods r).

End Route.

(** The (path, method) pairs of a route table, in table order. *)
Definition table_keys (routes : list Route.t) : list (string * string) :=
  flat_map Route.keys routes.

(** ** Extensions, settings and client *)

Module ApiExtension.

(** Modelled from the spec: the class [ApiExtension] of
    [stac_fastapi.types.extension] is not among the embedded sources.
    An extension carries its conformance URIs, an optional request
    mixin ([GET], [None] on the base class) and a registration hook;
    the hook adds whole new routes to the application and is kept as
    the list of routes it adds.  [mro] lists the names of the classes
    of the instance's type, most derived first, so that [isinstance] is
    membership.  [default_includes] is the attribute [app.py] reads on
    the fields extension. *)
Record t : Type := {
  mro : list string;
  conformance_classes : list string;
  GET : option RequestModel;
  default_includes : list string;
  register : list Route.t
}.

End ApiExtension.

Definition isinstance (ext : ApiExtension.t) (cls : string) : bool :=
  existsb (String.eqb cls) (ApiExtension.mro ext).

(** Truth value of [get_extension]'s result: [None] is false, and an
    extension instance is true (the classes define neither [__bool__]
    nor [__len__]). *)
Definition truthy (ext : option ApiExtension.t) : bool :=
  match ext with Some _ => true | None => false end.

Definition FieldsExtension : string := "FieldsExtension".
Definition CollectionSearchExtension : string := "CollectionSearchExtension".
Definition TokenPaginationExtension : string := "TokenPaginationExtension".

Module ApiSettings.

(** The two settings [app.py] reads or writes after construction. *)
Record t : Type := {
  enable_response_models : bool;
  default_includes : list string
}.

Definition with_default_includes (s : t) (l : list string) : t :=
  {| enable_response_models := enable_response_models s;
     default_includes := l |}.

End ApiSettings.

Module Client.

(** The attributes that assembly injects into the core client. *)
Record t : Type := {
  extensions : list ApiExtension.t;
  stac_version : string;
  title : string;
  description : string
}.

End Client.

(** ** Router and application *)

Module APIRouter.

Record t : Type := {
  prefix : string;
  routes : list Route.t
}.

(** [APIRouter.add_api_route]: the route is stored under the router's
    prefix, at the end of [routes]; nothing is compared with the
    routes already there. *)
Definition add_api_route (rt : t) (r : Route.t) : t :=
  {| prefix := prefix rt;
     routes := routes rt ++ [Route.with_path r (prefix rt ++ Route.path r)] |}.

(** [str.endswith("/")] *)
Fixpoint ends_with_slash (p : string) : bool :=
  match p with
  | EmptyString => false
  | String c EmptyString => Ascii.eqb c "/"%char
  | String _ rest => ends_with_slash rest
  end.

(** The assertions of [APIRouter(prefix=...)]: a prefix that is not empty
    must start with [/] and must not end with [/]. *)
Definition prefix_accepted (p : string) : bool :=
  match p with
  | EmptyString => true
  | _ => String.prefix "/" p && negb (ends_with_slash p)
  end.

(** [APIRouter(prefix=...)]: a router without routes, or [None] when an
    assertion on the prefix fails. *)
Definition new (p : string) : option t :=
  if prefix_accepted p then Some {| prefix := p; routes := [] |} else None.

End APIRouter.

Module FastAPI.

Record t : Type := {
  routes : list Route.t;
  state_settings : option ApiSettings.t;
  state_router_prefix : option string;
  user_middleware : list string;
  exception_handlers : list (string * nat);
  openapi_customized : bool
}.

Definition with_routes (a : t) (l : list Route.t) : t :=
  {| routes := l;
     state_settings := state_settings a;
     state_router_prefix := state_router_prefix a;
     user_middleware := user_middleware a;
     exception_handlers := exception_handlers a;
     openapi_customized := openapi_customized a |}.

Definition with_state_settings (a : t) (s : ApiSettings.t) : t :=
  {| routes := routes a;
     state_settings := Some s;
     state_router_prefix := state_router_prefix a;
     user_middleware := user_middleware a;
     exception_handlers := exception_handlers a;
     openapi_customized := openapi_customized a |}.

Definition with_state_router_prefix (a : t) (p : string) : t :=
  {| routes := routes a;
     state_settings := state_settings a;
     state_router_prefix := Some p;
     user_middleware := user_middleware a;
     exception_handlers := exception_handlers a;
     openapi_customized := openapi_customized a |}.

Definition with_exception_handlers (a : t) (h : list (string * nat)) : t :=
  {| routes := routes a;
     state_settings := state_settings a;
     state_router_prefix := state_router_prefix a;
     user_middleware := user_middleware a;
     exception_handlers := h;
     openapi_customized := openapi_customized a |}.

Definition with_openapi (a : t) : t :=
  {| routes := routes a;
     state_settings := state_settings a;
     state_router_prefix := state_router_prefix a;
     user_middleware := user_middleware a;
     exception_handlers := exception_handlers a;
     openapi_customized := true |}.

(** [add_middleware] puts the class in front of the middleware stack. *)
Definition add_middleware (a : t) (m : string) : t :=
  {| routes := routes a;
     state_settings := state_settings a;
     state_router_prefix := state_router_prefix a;
     user_middleware := m :: user_middleware a;
     exception_handlers := exception_handlers a;
     openapi_customized := openapi_customized a |}.

(** [include_router]: every route of the router is added, in order, at
    the end of the application's routes, with the given tags in front
    of its own. *)
Definition include_router (a : t) (rt : APIRouter.t) (tags : list string) : t :=
  with_routes a
    (routes a ++
     map (fun r => Route.with_tags r (tags ++ Route.tags r)) (APIRouter.routes rt)).

End FastAPI.

Module Routes.

(** Modelled from the spec: the selector matching of
    [add_route_dependencies] ([stac_fastapi.api.routes], not among the
    embedded sources).  The path template and the method of the route
    are compared with the selector, exactly. *)
Definition scope_matches (s : Scope) (r : Route.t) : bool :=
  String.eqb (scope_path s) (Route.path r)
  && existsb (String.eqb (scope_method s)) (Route.methods r).

(** Modelled from the spec: one selector of [add_route_dependencies]
    (not among the embedded sources) against one route; a match puts
    the dependencies after those the route has. *)
Definition add_scope_dependencies (dependencies : list Depends)
    (r : Route.t) (s : Scope) : Route.t :=
  if scope_matches s r
  then Route.with_dependencies r (Route.dependencies r ++ dependencies)
  else r.

(** Modelled from the spec: [add_route_dependencies] of
    [stac_fastapi.api.routes] (not among the embedded sources): every
    route is compared with every selector, in selector order. *)
Definition add_route_dependencies (routes : list Route.t)
    (scopes : list Scope) (dependencies : list Depends) : list Route.t :=
  map (fun r => fold_left (add_scope_dependencies dependencies) scopes r) routes.

End Routes.

(** Modelled from the spec: [add_exception_handlers] of
    [stac_fastapi.api.errors] is not among the embedded sources; it
    installs the exception policy table on the application. *)
Definition add_exception_handlers (a : FastAPI.t)
    (status_codes : list (string * nat)) : FastAPI.t :=
  FastAPI.with_exception_handlers a status_codes.

(** ** The StacApi class *)

Module StacApi.

(** The attributes of [StacApi] that hold plain data. *)
Record t : Type := {
  extensions : list ApiExtension.t;
  exceptions : list (string * nat);
  title : string;
  api_version : string;
  stac_version : string;
  description : string;
  search_get_request_model : RequestModel;
  search_post_request_model : RequestModel;
  search_catalog_get_request_model : RequestModel;
  search_catalog_post_request_model : RequestModel;
  pagination_extension : string;
  response_class : ResponseClass;
  middlewares : list string;
  route_dependencies : list (list Scope * list Depends);
  collections_get_request_model : RequestModel;
  collections_post_request_model : RequestModel
}.

(** The objects behind the attributes [settings], [client], [app] and
    [router], and the process-wide holder written by [Settings.set]. *)
Record Store : Type := {
  settings : ApiSettings.t;
  client : Client.t;
  app : FastAPI.t;
  router : APIRouter.t;
  Settings_instance : option ApiSettings.t
}.

Definition with_settings (st : Store) (s : ApiSettings.t) : Store :=
  {| settings := s; client := client st; app := app st;
     router := router st; Settings_instance := Settings_instance st |}.

Definition with_client (st : Store) (c : Client.t) : Store :=
  {| settings := settings st; client := c; app := app st;
     router := router st; Settings_instance := Settings_instance st |}.

Definition with_app (st : Store) (a : FastAPI.t) : Store :=
  {| settings := settings st; client := client st; app := a;
     router := router st; Settings_instance := Settings_instance st |}.

Definition with_router (st : Store) (rt : APIRouter.t) : Store :=
  {| settings := settings st; client := client st; app := app st;
     router := rt; Settings_instance := Settings_instance st |}.

Definition with_Settings_instance (st : Store) (s : ApiSettings.t) : Store :=
  {| settings := settings st; client := client st; app := app st;
     router := router st; Settings_instance := Some s |}.

(** Modelled from the spec: the construction-time error kinds (section 7);
    [AttributeError] and [AssertionError] are Python's own, for an
    attribute read before it is set and for an assertion that fails. *)
Inductive AssemblyError : Type :=
| SchemaConflictError
| RouteConflictError (path method : string)
| AttributeError (attribute : string)
| AssertionError.

(** A method: it reads and updates the store, and returns or raises. *)
Definition M (A : Type) : Type := Store -> AssemblyError + (A * Store).

Definition ret {A : Type} (a : A) : M A := fun st => inr (a, st).

Definition bind {A B : Type} (m : M A) (f : A -> M B) : M B :=
  fun st =>
    match m st with
    | inl e => inl e
    | inr (a, st') => f a st'
    end.

Definition raise {A : Type} (e : AssemblyError) : M A := fun _ => inl e.

Definition get : M Store := fun st => inr (st, st).

Definition modify (f : Store -> Store) : M unit := fun st => inr (tt, f st).

Declare Scope method_scope.
Delimit Scope method_scope with method.
Notation "x <- c1 ;; c2" := (bind c1 (fun x => c2))
  (at level 61, c1 at next level, right associativity) : method_scope.
Notation "c1 ;; c2" := (bind c1 (fun _ => c2))
  (at level 61, right associativity) : method_scope.
Local Open Scope method_scope.

(** [for x in l: body(x)] *)
Fixpoint for_each {A : Type} (l : list A) (body : A -> M unit) : M unit :=
  match l with
  | [] => ret tt
  | x :: rest => body x ;; for_each rest body
  end.

Section Methods.

Variable models : ModelsModule.

(** [get_extension]: the first extension that is an instance of the
    class, if any. *)
Fixpoint first_instance (exts : list ApiExtension.t) (extension : string)
    : option ApiExtension.t :=
  match exts with
  | [] => None
  | ext :: rest =>
      if isinstance ext extension then Some ext
      else first_instance rest extension
  end.

Definition get_extension (self : t) (extension : string)
    : option ApiExtension.t :=
  first_instance (extensions self) extension.

(** [self.router.add_api_route(name=, path=, response_model=,
    response_class=, response_model_exclude_unset=,
    response_model_exclude_none=, methods=, endpoint=)]; the route starts
    with no dependencies and no tags. *)
Definition add_api_route (name path : string)
    (response_model : option ResponseModel) (response_class : ResponseClass)
    (response_model_exclude_unset response_model_exclude_none : bool)
    (methods : list string) (endpoint : Endpoint) : M unit :=
  modify (fun st =>
    with_router st
      (APIRouter.add_api_route (router st)
         {| Route.name := name;
            Route.path := path;
            Route.response_model := response_model;
            Route.response_class := response_class;
            Route.response_model_exclude_unset := response_model_exclude_unset;
            Route.response_model_exclude_none := response_model_exclude_none;
            Route.methods := methods;
            Route.endpoint := endpoint;
            Route.dependencies := [];
            Route.tags := [] |})).

Definition register_landing_page (self : t) : M unit :=
  st <- get ;;
  add_api_route "Landing Page" "/"
    (if ApiSettings.enable_response_models (settings st)
     then Some LandingPage else None)
    (response_class self) false true ["GET"]
    (create_async_endpoint landing_page (EmptyRequest models)).

Definition register_conformance_classes (self : t) : M unit :=
  st <- get ;;
  add_api_route "Conformance Classes" "/conformance"
    (if ApiSettings.enable_response_models (settings st)
     then Some ConformanceClasses else None)
    (response_class self) true true ["GET"]
    (create_async_endpoint conformance (EmptyRequest models)).

Definition register_get_item (self : t) : M unit :=
  st <- get ;;
  add_api_route "Get Item"
    "/catalogs/{catalog_id}/collections/{collection_id}/items/{item_id}"
    (if ApiSettings.enable_response_models (settings st)
     then Some Item else None)
    GeoJSONResponse true true ["GET"]
    (create_async_endpoint get_item (ItemUri models)).

Definition register_post_global_search (self : t) : M unit :=
  st <- get ;;
  let fields_ext := get_extension self FieldsExtension in
  add_api_route "Search" "/search"
    (if ApiSettings.enable_response_models (settings st)
     then (if negb (truthy fields_ext) then Some ItemCollection else None)
     else None)
    GeoJSONResponse true true ["POST"]
    (create_async_endpoint post_global_search (search_post_request_model self)).

Definition register_get_global_search (self : t) : M unit :=
  st <- get ;;
  let fields_ext := get_extension self FieldsExtension in
  add_api_route "Search" "/search"
    (if ApiSettings.enable_response_models (settings st)
     then (if negb (truthy fields_ext) then Some ItemCollection else None)
     else None)
    GeoJSONResponse true true ["GET"]
    (create_async_endpoint get_global_search (search_get_request_model self)).

Definition register_post_search (self : t) : M unit :=
  st <- get ;;
  let fields_ext := get_extension self FieldsExtension in
  add_api_route "Catalog Item Search" "/catalogs/{catalog_id}/search"
    (if ApiSettings.enable_response_models (settings st)
     then (if negb (truthy fields_ext) then Some ItemCollection else None)
     else None)
    GeoJSONResponse true true ["POST"]
    (create_async_endpoint post_search (search_catalog_post_request_model self)).

Definition register_get_search (self : t) : M unit :=
  st <- get ;;
  let fields_ext := get_extension self FieldsExtension in
  add_api_route "Catalog Item Search" "/catalogs/{catalog_id}/search"
    (if ApiSettings.enable_response_models (settings st)
     then (if negb (truthy fields_ext) then Some ItemCollection else None)
     else None)
    GeoJSONResponse true true ["GET"]
    (create_async_endpoint get_search (search_catalog_get_request_model self)).

Definition register_get_collections (self : t) : M unit :=
  st <- get ;;
  let collection_search_ext := get_extension self CollectionSearchExtension in
  add_api_route "Get Collections" "/collections"
    (if ApiSettings.enable_response_models (settings st)
     then (if negb (truthy collection_search_ext) then Some Collections else None)
     else None)
    (response_class self) true true ["GET"]
    (create_async_endpoint all_collections (collections_get_request_model self)).

Definition register_get_catalogs (self : t) : M unit :=
  st <- get ;;
  add_api_route "Get Catalogs" "/catalogs"
    (if ApiSettings.enable_response_models (settings st)
     then Some Catalogs else None)
    (response_class self) true true ["GET"]
    (create_async_endpoint all_catalogs (EmptyRequest models)).

Definition register_get_catalog_collections (self : t) : M unit :=
  st <- get ;;
  add_api_route "Get CatalogCollections" "/catalogs/{catalog_id}/collections"
    (if ApiSettings.enable_response_models (settings st)
     then Some Collections else None)
    (response_class self) true true ["GET"]
    (create_async_endpoint get_catalog_collections (CatalogUri models)).

Definition register_get_collection (self : t) : M unit :=
  st <- get ;;
  add_api_route "Get Collection"
    "/catalogs/{catalog_id}/collections/{collection_id}"
    (if ApiSettings.enable_response_models (settings st)
     then Some Collection else None)
    (response_class self) true true ["GET"]
    (create_async_endpoint get_collection (CollectionUri models)).

Definition register_get_catalog (self : t) : M unit :=
  st <- get ;;
  add_api_route "Get Catalog" "/catalogs/{catalog_id}"
    (if ApiSettings.enable_response_models (settings st)
     then Some Catalog else None)
    (response_class self) true true ["GET"]
    (create_async_endpoint get_catalog (CatalogUri models)).

(** The request model of the item collection route: the mixin list is
    [[pagination_extension.GET]] when a pagination extension is found and
    [None] otherwise; a raise of [create_request_model] aborts. *)
Definition item_collection_mixins (self : t)
    : option (list (option RequestModel)) :=
  match get_extension self (pagination_extension self) with
  | Some pagination_extension => Some [ApiExtension.GET pagination_extension]
  | None => None
  end.

Definition register_get_item_collection (self : t) : M unit :=
  st <- get ;;
  let mixins := item_collection_mixins self in
  match create_request_model models "ItemCollectionURI"
          (ItemCollectionUri models) mixins with
  | None => raise SchemaConflictError
  | Some request_model =>
      add_api_route "Get ItemCollection"
        "/catalogs/{catalog_id}/collections/{collection_id}/items"
        (if ApiSettings.enable_response_models (settings st)
         then Some ItemCollection else None)
        GeoJSONResponse true true ["GET"]
        (create_async_endpoint item_collection request_model)
  end.

Definition register_core (self : t) : M unit :=
  register_landing_page self ;;
  register_conformance_classes self ;;
  register_get_item self ;;
  register_post_global_search self ;;
  register_get_global_search self ;;
  register_post_search self ;;
  register_get_search self ;;
  register_get_collections self ;;
  register_get_catalogs self ;;
  register_get_collection self ;;
  register_get_catalog self ;;
  register_get_item_collection self ;;
  register_get_catalog_collections self.

(** The liveliness probe written inside [add_health_check]. *)
Definition ping (_ : unit) : JSON := [("message", "PONG")].

Definition add_health_check (self : t) : M unit :=
  st <- get ;;
  match FastAPI.state_router_prefix (app st) with
  | None => raise (AttributeError "router_prefix")
  | Some router_prefix =>
      match APIRouter.new router_prefix with
      | None => raise AssertionError
      | Some mgmt_router =>
          let mgmt_router :=
            APIRouter.add_api_route mgmt_router
              {| Route.name := "ping";
                 Route.path := "/_mgmt/ping";
                 Route.response_model := None;
                 Route.response_class := JSONResponse;
                 Route.response_model_exclude_unset := false;
                 Route.response_model_exclude_none := false;
                 Route.methods := ["GET"];
                 Route.endpoint := coroutine ping;
                 Route.dependencies := [];
                 Route.tags := [] |} in
          modify (fun st =>
            with_app st
              (FastAPI.include_router (app st) mgmt_router
                 ["Liveliness/Readiness"]))
      end
  end.

(** The method [add_route_dependencies]: the function of
    [stac_fastapi.api.routes] applied to the application's routes. *)
Definition add_route_dependencies (self : t) (scopes : list Scope)
    (dependencies : list Depends) : M unit :=
  modify (fun st =>
    with_app st
      (FastAPI.with_routes (app st)
         (Routes.add_route_dependencies
            (FastAPI.routes (app st)) scopes dependencies))).

(** [ext.register(self.app)] *)
Definition register_extension (ext : ApiExtension.t) : M unit :=
  modify (fun st =>
    with_app st
      (FastAPI.with_routes (app st)
         (FastAPI.routes (app st) ++ ApiExtension.register ext))).

Definition __attrs_post_init__ (self : t) : M unit :=
  (* inject settings *)
  modify (fun st =>
    with_client st
      {| Client.extensions := extensions self;
         Client.stac_version := stac_version self;
         Client.title := title self;
         Client.description := description self |}) ;;
  let fields_ext := get_extension self FieldsExtension in
  match fields_ext with
  | Some fields_ext =>
      modify (fun st =>
        with_settings st
          (ApiSettings.with_default_includes (settings st)
             (ApiExtension.default_includes fields_ext)))
  | None => ret tt
  end ;;
  modify (fun st => with_Settings_instance st (settings st)) ;;
  modify (fun st =>
    with_app st (FastAPI.with_state_settings (app st) (settings st))) ;;
  (* register core STAC endpoints *)
  register_core self ;;
  modify (fun st => with_app st (FastAPI.include_router (app st) (router st) [])) ;;
  (* keep link to the router prefix value *)
  st <- get ;;
  let router_prefix := APIRouter.prefix (router st) in
  modify (fun st =>
    with_app st
      (FastAPI.with_state_router_prefix (app st)
         (if (0 <? String.length router_prefix)%nat then router_prefix else ""))) ;;
  (* register extensions *)
  for_each (extensions self) register_extension ;;
  (* add health check *)
  add_health_check self ;;
  (* register exception handlers *)
  modify (fun st =>
    with_app st (add_exception_handlers (app st) (exceptions self))) ;;
  (* customize openapi *)
  modify (fun st => with_app st (FastAPI.with_openapi (app st))) ;;
  (* add middlewares *)
  for_each (middlewares self)
    (fun middleware =>
       modify (fun st => with_app st (FastAPI.add_middleware (app st) middleware))) ;;
  (* customize route dependencies *)
  for_each (route_dependencies self)
    (fun '(scopes, dependencies) =>
       add_route_dependencies self scopes dependencies).

End Methods.

End StacApi.

Import StacApi.
Local Open Scope method_scope.
Open Scope list_scope.

(** ** Notions used to state the properties *)

(** The store with an empty router of the same prefix. *)
Definition fresh_router (st : Store) : Store :=
  with_router st
    {| APIRouter.prefix := APIRouter.prefix (router st);
       APIRouter.routes := [] |}.

(** The routes a method registers on the router, in registration order
    (none when it raises). *)
Definition registered (m : M unit) (st : Store) : list Route.t :=
  match m (fresh_router st) with
  | inr (_, st') => APIRouter.routes (router st')
  | inl _ => []
  end.

(** The route that [add_health_check] leaves in the application. *)
Definition ping_route (router_prefix : string) : Route.t :=
  {| Route.name := "ping";
     Route.path := router_prefix ++ "/_mgmt/ping";
     Route.response_model := None;
     Route.response_class := JSONResponse;
     Route.response_model_exclude_unset := false;
     Route.response_model_exclude_none := false;
     Route.methods := ["GET"];
     Route.endpoint := coroutine ping;
     Route.dependencies := [];
     Route.tags := ["Liveliness/Readiness"] |}.

(** The route table once the core routes, the extensions' routes and the
    health check are in, before any overlay: the routes the application
    and the router came with, then the core routes, then the routes of
    each extension in list order, then the health check. *)
Definition table_before_overlays (models : ModelsModule) (self : t)
    (st : Store) : list Route.t :=
  FastAPI.routes (app st)
  ++ APIRouter.routes (router st)
  ++ registered (register_core models self) st
  ++ flat_map ApiExtension.register (extensions self)
  ++ [ping_route (APIRouter.prefix (router st))].

(** What one overlay adds to the dependency chain of a route: its
    dependency list once for each selector the route matches. *)
Definition overlay_dependencies (r : Route.t)
    (overlay : list Scope * list Depends) : list Depends :=
  flat_map
    (fun s => if Routes.scope_matches s r then snd overlay else [])
    (fst overlay).

(** What a list of overlays adds, in declaration order. *)
Definition added_dependencies (overlays : list (list Scope * list Depends))
    (r : Route.t) : list Depends :=
  flat_map (overlay_dependencies r) overlays.

(** Position of the first core route in the assembled table, and the
    [i]-th core route as found there. *)
Definition core_offset (st : Store) : nat :=
  length (FastAPI.routes (app st)) + length (APIRouter.routes (router st)).

Definition assembled_core_route (st st' : Store) (i : nat) : option Route.t :=
  nth_error (FastAPI.routes (app st')) (core_offset st + i).

(** The same [StacApi] with another extensions list. *)
Definition with_extensions (self : t) (exts : list ApiExtension.t) : t :=
  {| extensions := exts;
     exceptions := exceptions self;
     title := title self;
     api_version := api_version self;
     stac_version := stac_version self;
     description := description self;
     search_get_request_model := search_get_request_model self;
     search_post_request_model := search_post_request_model self;
     search_catalog_get_request_model := search_catalog_get_request_model self;
     search_catalog_post_request_model := search_catalog_post_request_model self;
     pagination_extension := pagination_extension self;
     response_class := response_class self;
     middlewares := middlewares self;
     route_dependencies := route_dependencies self;
     collections_get_request_model := collections_get_request_model self;
     collections_post_request_model := collections_post_request_model self |}.

(** The registration methods called by [register_core], in call order. *)
Definition registration_methods (models : ModelsModule) : list (t -> M unit) :=
  [ register_landing_page models;
    register_conformance_classes models;
    register_get_item models;
    register_post_global_search;
    register_get_global_search;
    register_post_search;
    register_get_search;
    register_get_collections;
    register_get_catalogs models;
    register_get_collection models;
    register_get_catalog models;
    register_get_item_collection models;
    register_get_catalog_collections models ].

(** The identity of a route in the generated documentation. *)
Definition route_id (r : Route.t) : string * string * list string :=
  (Route.name r, Route.path r, Route.methods r).

(** Paths under a router prefix. *)
Definition under (router_prefix : string) (k : string * string * list string)
    : string * string * list string :=
  match k with (n, p, m) => (n, (router_prefix ++ p)%string, m) end.

(** ** Sample inputs *)

(** Modelled from the spec: [create_request_model] of
    [stac_fastapi.api.models] is not among the embedded sources (section 4.1).
    Start from the base's fields; for each mixin in order and each of its
    fields in order: add the field when its name is absent, skip it when
    the name is present with the same declared type, fail when it is
    present with another type.  A missing mixin ([None]) is no schema
    fragment and fails as well. *)
Fixpoint declared_type (field : string) (fields : list (string * string))
    : option string :=
  match fields with
  | [] => None
  | (n, ty) :: rest =>
      if String.eqb n field then Some ty else declared_type field rest
  end.

(** Modelled from the spec: one field of a mixin merged into the fields
    gathered so far ([create_request_model], not among the embedded
    sources). *)
Definition add_field (acc : option (list (string * string)))
    (f : string * string) : option (list (string * string)) :=
  match acc with
  | None => None
  | Some fields =>
      match declared_type (fst f) fields with
      | None => Some (fields ++ [f])
      | Some ty => if String.eqb ty (snd f) then Some fields else None
      end
  end.

(** Modelled from the spec: one mixin merged, field by field
    ([create_request_model], not among the embedded sources). *)
Definition add_mixin (acc : option (list (string * string)))
    (mixin : option RequestModel) : option (list (string * string)) :=
  match mixin with
  | None => None
  | Some m => fold_left add_field (model_fields m) acc
  end.

(** Modelled from the spec: [create_request_model] itself (not among
    the embedded sources): the base's fields, then the mixins in order. *)
Definition synthesize (name : string) (base_model : RequestModel)
    (mixins : option (list (option RequestModel))) : option RequestModel :=
  match fold_left add_mixin
          (match mixins with Some l => l | None => [] end)
          (Some (model_fields base_model)) with
  | Some fields => Some {| model_name := name; model_fields := fields |}
  | None => None
  end.

Definition sample_models : ModelsModule :=
  {| EmptyRequest := {| model_name := "EmptyRequest"; model_fields := [] |};
     ItemUri :=
       {| model_name := "ItemUri";
          model_fields := [("catalog_id", "str"); ("collection_id", "str");
                           ("item_id", "str")] |};
     CollectionUri :=
       {| model_name := "CollectionUri";
          model_fields := [("catalog_id", "str"); ("collection_id", "str")] |};
     CatalogUri :=
       {| model_name := "CatalogUri";
          model_fields := [("catalog_id", "str")] |};
     ItemCollectionUri :=
       {| model_name := "ItemCollectionUri";
          model_fields := [("catalog_id", "str"); ("collection_id", "str");
                           ("limit", "int")] |};
     create_request_model := synthesize |}.

Definition sample_fields_extension : ApiExtension.t :=
  {| ApiExtension.mro := ["FieldsExtension"; "ApiExtension"];
     ApiExtension.conformance_classes :=
       ["https://api.stacspec.org/v1.0.0/item-search#fields"];
     ApiExtension.GET :=
       Some {| model_name := "FieldsExtensionGetRequest";
               model_fields := [("fields", "str")] |};
     ApiExtension.default_includes := ["id"; "type"; "geometry"];
     ApiExtension.register := [] |}.

Definition sample_collection_search_extension : ApiExtension.t :=
  {| ApiExtension.mro := ["CollectionSearchExtension"; "ApiExtension"];
     ApiExtension.conformance_classes :=
       ["https://api.stacspec.org/v1.0.0-rc.1/collection-search"];
     ApiExtension.GET :=
       Some {| model_name := "CollectionSearchGetRequest";
               model_fields := [("q", "str")] |};
     ApiExtension.default_includes := [];
     ApiExtension.register := [] |}.

Definition sample_pagination_extension : ApiExtension.t :=
  {| ApiExtension.mro := ["TokenPaginationExtension"; "ApiExtension"];
     ApiExtension.conformance_classes := [];
     ApiExtension.GET :=
       Some {| model_name := "GETTokenPagination";
               model_fields := [("token", "str")] |};
     ApiExtension.default_includes := [];
     ApiExtension.register := [] |}.

(** A second pagination extension instance, with another mixin. *)
Definition sample_pagination_extension_2 : ApiExtension.t :=
  {| ApiExtension.mro := ["TokenPaginationExtension"; "ApiExtension"];
     ApiExtension.conformance_classes := [];
     ApiExtension.GET :=
       Some {| model_name := "GETPagination";
               model_fields := [("page", "str")] |};
     ApiExtension.default_includes := [];
     ApiExtension.register := [] |}.

(** An extension whose hook registers its own [GET /search]. *)
Definition sample_search_override_extension : ApiExtension.t :=
  {| ApiExtension.mro := ["FreeTextSearchExtension"; "ApiExtension"];
     ApiExtension.conformance_classes := [];
     ApiExtension.GET := None;
     ApiExtension.default_includes := [];
     ApiExtension.register :=
       [ {| Route.name := "Free Text Search";
            Route.path := "/search";
            Route.response_model := None;
            Route.response_class := GeoJSONResponse;
            Route.response_model_exclude_unset := false;
            Route.response_model_exclude_none := false;
            Route.methods := ["GET"];
            Route.endpoint := coroutine (fun _ => [("type", "FeatureCollection")]);
            Route.dependencies := [ {| dependency := "rate_limit" |} ];
            Route.tags := ["Free Text"] |} ] |}.

Definition sample_model (name : string) : RequestModel :=
  {| model_name := name; model_fields := [] |}.

(** A [StacApi] with the default attribute values, for the given
    extensions and route dependencies. *)
Definition sample_api (exts : list ApiExtension.t)
    (overlays : list (list Scope * list Depends)) : t :=
  {| extensions := exts;
     exceptions := [("NotFoundError", 404); ("ConflictError", 409)];
     title := "stac-fastapi";
     api_version := "0.1";
     stac_version := "1.0.0";
     description := "stac-fastapi";
     search_get_request_model := sample_model "BaseSearchGetRequest";
     search_post_request_model := sample_model "BaseSearchPostRequest";
     search_catalog_get_request_model := sample_model "BaseCatalogSearchGetRequest";
     search_catalog_post_request_model := sample_model "CatalogSearchPostRequest";
     pagination_extension := TokenPaginationExtension;
     response_class := JSONResponse;
     middlewares := ["BrotliMiddleware"; "CORSMiddleware"; "ProxyHeaderMiddleware"];
     route_dependencies := overlays;
     collections_get_request_model := EmptyRequest sample_models;
     collections_post_request_model := sample_model "BaseModel" |}.

(** A store before assembly: a fresh application and a router with the
    given prefix, and the given [enable_response_models] setting. *)
Definition sample_store (enable : bool) (router_prefix : string) : Store :=
  {| settings :=
       {| ApiSettings.enable_response_models := enable;
          ApiSettings.default_includes := ["id"] |};
     client :=
       {| Client.extensions := []; Client.stac_version := "";
          Client.title := ""; Client.description := "" |};
     app :=
       {| FastAPI.routes := [];
          FastAPI.state_settings := None;
          FastAPI.state_router_prefix := None;
          FastAPI.user_middleware := [];
          FastAPI.exception_handlers := [];
          FastAPI.openapi_customized := false |};
     router := {| APIRouter.prefix := router_prefix; APIRouter.routes := [] |};
     Settings_instance := None |}.

(** An overlay that asks for a token on the two [/search] routes. *)
Definition sample_overlay : list Scope * list Depends :=
  ([ {| scope_path := "/search"; scope_method := "GET" |};
     {| scope_path := "/search"; scope_method := "POST" |} ],
   [ {| dependency := "oauth2_scheme" |} ]).

Definition sample_ping_overlay : list Scope * list Depends :=
  ([ {| scope_path := "/_mgmt/ping"; scope_method := "GET" |} ],
   [ {| dependency := "audit_log" |} ]).

(** A [StacApi] with an extension route and three overlays, the first
    and the last the same. *)
Definition sample_overlaid_api : t :=
  sample_api [sample_search_override_extension]
    [sample_overlay; sample_ping_overlay; sample_overlay].

(** ** The result of assembly *)

(** The settings after the fields extension's [default_includes] are
    injected. *)
Definition injected_settings (self : t) (st : Store) : ApiSettings.t :=
  match get_extension self FieldsExtension with
  | Some fields_ext =>
      ApiSettings.with_default_includes (settings st)
        (ApiExtension.default_includes fields_ext)
  | None => settings st
  end.

(** The store that a successful [__attrs_post_init__] leaves. *)
Definition assembled (models : ModelsModule) (self : t) (st : Store) : Store :=
  {| settings := injected_settings self st;
     client :=
       {| Client.extensions := extensions self;
          Client.stac_version := stac_version self;
          Client.title := title self;
          Client.description := description self |};
     app :=
       {| FastAPI.routes :=
            map (fun r =>
                   Route.with_dependencies r
                     (Route.dependencies r
                      ++ added_dependencies (route_dependencies self) r))
                (table_before_overlays models self st);
          FastAPI.state_settings := Some (injected_settings self st);
          FastAPI.state_router_prefix := Some (APIRouter.prefix (router st));
          FastAPI.user_middleware :=
            rev (middlewares self) ++ FastAPI.user_middleware (app st);
          FastAPI.exception_handlers := exceptions self;
          FastAPI.openapi_customized := true |};
     router :=
       {| APIRouter.prefix := APIRouter.prefix (router st);
          APIRouter.routes :=
            APIRouter.routes (router st)
            ++ registered (register_core models self) st |};
     Settings_instance := Some (injected_settings self st) |}.

(** ** The documented registration order *)

(** Name, path and methods of the core routes, by group: the landing
    page, the conformance classes, the item-level route, the search
    routes (across catalogs and per catalog), and the collection and
    catalog routes, the listing of a collection's items among them. *)
Definition landing_route_id : string * string * list string :=
  ("Landing Page", "/", ["GET"]).

Definition conformance_route_id : string * string * list string :=
  ("Conformance Classes", "/conformance", ["GET"]).

Definition item_route_ids : list (string * string * list string) :=
  [ ("Get Item",
     "/catalogs/{catalog_id}/collections/{collection_id}/items/{item_id}",
     ["GET"]) ].

Definition search_route_ids : list (string * string * list string) :=
  [ ("Search", "/search", ["POST"]);
    ("Search", "/search", ["GET"]);
    ("Catalog Item Search", "/catalogs/{catalog_id}/search", ["POST"]);
    ("Catalog Item Search", "/catalogs/{catalog_id}/search", ["GET"]) ].

Definition listing_route_ids : list (string * string * list string) :=
  [ ("Get Collections", "/collections", ["GET"]);
    ("Get Catalogs", "/catalogs", ["GET"]);
    ("Get Collection", "/catalogs/{catalog_id}/collections/{collection_id}",
     ["GET"]);
    ("Get Catalog", "/catalogs/{catalog_id}", ["GET"]);
    ("Get ItemCollection",
     "/catalogs/{catalog_id}/collections/{collection_id}/items", ["GET"]);
    ("Get CatalogCollections", "/catalogs/{catalog_id}/collections", ["GET"]) ].

Definition core_route_ids : list (string * string * list string) :=
  [landing_route_id] ++ [conformance_route_id] ++ item_route_ids
  ++ search_route_ids ++ listing_route_ids.

(** The declared response models of the thirteen core routes as found in
    the assembled table. *)
Definition core_response_models (st st' : Store) : list (option ResponseModel) :=
  map Route.response_model
    (firstn 13 (skipn (core_offset st) (FastAPI.routes (app st')))).

(** What [register_get_item_collection] does when the request model is
    built from the given mixin list: the route it registers has the
    class returned by [create_request_model] as request model, and a
    raise of [create_request_model] is the method's outcome. *)
Definition registers_item_collection_with (models : ModelsModule) (self : t)
    (st : Store) (mixins : option (list (option RequestModel))) : Prop :=
  match create_request_model models "ItemCollectionURI"
          (ItemCollectionUri models) mixins with
  | Some request_model =>
      exists r : Route.t,
        register_get_item_collection models self st
        = inr (tt, with_router st (APIRouter.add_api_route (router st) r))
        /\ Route.path r
           = "/catalogs/{catalog_id}/collections/{collection_id}/items"
        /\ Route.methods r = ["GET"]
        /\ Route.endpoint r = create_async_endpoint item_collection request_model
  | None =>
      register_get_item_collection models self st = inl SchemaConflictError
  end.

(** A boolean test that no (path, method) pair occurs twice. *)
Definition key_eqb (k1 k2 : string * string) : bool :=
  String.eqb (fst k1) (fst k2) && String.eqb (snd k1) (snd k2).

Fixpoint distinctb (keys : list (string * string)) : bool :=
  match keys with
  | [] => true
  | k :: rest => negb (existsb (key_eqb k) rest) && distinctb rest
  end.

(** The (path, method) pairs of the core routes and of the health check,
    before the router prefix is put in front. *)
Definition own_keys : list (string * string) :=
  flat_map (fun k => map (fun m => (snd (fst k), m)) (snd k)) core_route_ids
  ++ [("/_mgmt/ping", "GET")].

Definition prefixed (router_prefix : string) (k : string * string)
    : string * string :=
  ((router_prefix ++ fst k)%string, snd k).

(** ** The OpenAPI schema *)

Module OpenAPI.

(** The attributes of the application that [customize_openapi] reads or
    writes besides its routes: the cached schema ([None] until it is
    generated) and the servers. *)
Record t : Type := {
  openapi_schema : option JSON;
  servers : list string
}.

End OpenAPI.

(** [customize_openapi]: a schema already on the application is returned
    as it is when it is true (a dict that is not empty); otherwise the
    schema is generated by [get_openapi] from the title, the version,
    the description, the application's routes and its servers, stored
    on the application and returned. *)
Definition customize_openapi
    (get_openapi :
       string -> string -> string -> list Route.t -> list string -> JSON)
    (self : t) (st : Store) (docs : OpenAPI.t) : JSON * OpenAPI.t :=
  match OpenAPI.openapi_schema docs with
  | Some (entry :: rest) => (entry :: rest, docs)
  | _ =>
      let openapi_schema :=
        get_openapi (title self) (api_version self) (description self)
          (FastAPI.routes (app st)) (OpenAPI.servers docs) in
      (openapi_schema,
       {| OpenAPI.openapi_schema := Some openapi_schema;
          OpenAPI.servers := OpenAPI.servers docs |})
  end.

(** The same [StacApi] with another [api_version]. *)
Definition with_api_version (self : t) (v : string) : t :=
  {| extensions := extensions self;
     exceptions := exceptions self;
     title := title self;
     api_version := v;
     stac_version := stac_version self;
     description := description self;
     search_get_request_model := search_get_request_model self;
     search_post_request_model := search_post_request_model self;
     search_catalog_get_request_model := search_catalog_get_request_model self;
     search_catalog_post_request_model := search_catalog_post_request_model self;
     pagination_extension := pagination_extension self;
     response_class := response_class self;
     middlewares := middlewares self;
     route_dependencies := route_dependencies self;
     collections_get_request_model := collections_get_request_model self;
     collections_post_request_model := collections_post_request_model self |}.

(** The same [StacApi] with another [collections_post_request_model]. *)
Definition with_collections_post_request_model (self : t) (m : RequestModel) : t :=
  {| extensions := extensions self;
     exceptions := exceptions self;
     title := title self;
     api_version := api_version self;
     stac_version := stac_version self;
     description := description self;
     search_get_request_model := search_get_request_model self;
     search_post_request_model := search_post_request_model self;
     search_catalog_get_request_model := search_catalog_get_request_model self;
     search_catalog_post_request_model := search_catalog_post_request_model self;
     pagination_extension := pagination_extension self;
     response_class := response_class self;
     middlewares := middlewares self;
     route_dependencies := route_dependencies self;
     collections_get_request_model := collections_get_request_model self;
     collections_post_request_model := m |}.

(** The serialisation options of a route. *)
Definition exclude_flags (r : Route.t) : bool * bool :=
  (Route.response_model_exclude_unset r, Route.response_model_exclude_none r).

(** More sample inputs: a second fields extension instance with other
    default includes, an assembly input and the request model its item
    collection route gets, and a schema generator that lists the title
    and the number of routes. *)
Definition sample_fields_extension_2 : ApiExtension.t :=
  {| ApiExtension.mro := ["CustomFieldsExtension"; "FieldsExtension"; "ApiExtension"];
     ApiExtension.conformance_classes := [];
     ApiExtension.GET := None;
     ApiExtension.default_includes := ["id"; "links"];
     ApiExtension.register := [] |}.

Definition sample_self : t :=
  sample_api [sample_fields_extension; sample_pagination_extension]
    [sample_overlay].

Definition sample_st : Store := sample_store true "/api".

Definition sample_item_collection_model : RequestModel :=
  {| model_name := "ItemCollectionURI";
     model_fields := [("catalog_id", "str"); ("collection_id", "str");
                      ("limit", "int"); ("token", "str")] |}.

Definition sample_get_openapi (title version description : string)
    (routes : list Route.t) (servers : list string) : JSON :=
  [("title", title); ("version", version);
   ("paths", String.concat "," (map Route.path routes))].

Definition sample_docs : OpenAPI.t :=
  {| OpenAPI.openapi_schema := None; OpenAPI.servers := [] |}.

(** ** Dispatch of a request *)

(** A route is registered for a path and a method when its path template
    is that path and the method is among its methods. *)
Definition answers (path method : string) (r : Route.t) : bool :=
  String.eqb path (Route.path r)
  && existsb (String.eqb method) (Route.methods r).

(** The route table is searched in order: the first route registered for
    the path and the method takes the request. *)
Definition first_match (routes : list Route.t) (path method : string)
    : option Route.t :=
  find (answers path method) routes.

(** The body a request gets from the route that takes it, when the
    handler of that route is a coroutine written in place.  A handler
    that wraps a client method answers with what the client returns,
    which is not part of this development, and the dependencies of the
    route are not run here. *)
Definition response_body (routes : list Route.t) (path method : string)
    : option JSON :=
  match first_match routes path method with
  | Some r =>
      match Route.endpoint r with
      | coroutine body => Some (body tt)
      | create_async_endpoint _ _ => None
      end
  | None => None
  end.


(** ** Auxiliary facts *)

(** Running registration methods on a store given by its components. *)
Ltac run_registrations :=
  cbv beta iota zeta delta
    [registered register_core register_landing_page
     register_conformance_classes register_get_item
     register_post_global_search register_get_global_search
     register_post_search register_get_search register_get_collections
     register_get_catalogs register_get_collection register_get_catalog
     register_get_item_collection register_get_catalog_collections
     add_api_route bind get modify raise ret APIRouter.add_api_route
     fresh_router with_router router settings client app Settings_instance
     APIRouter.prefix APIRouter.routes].

Ltac run_core Hrm :=
  run_registrations; rewrite Hrm; run_registrations.

Lemma router_prefix_or_empty (p : string) :
  (if (0 <? String.length p)%nat then p else "") = p.
Proof. destruct p; reflexivity. Qed.

Lemma append_inj_l (p a b : string) : (p ++ a = p ++ b)%string -> a = b.
Proof.
  induction p as [|c p IH]; simpl; intros H.
  - exact H.
  - injection H as H. auto.
Qed.

Lemma with_tags_same (r : Route.t) : Route.with_tags r ([] ++ Route.tags r) = r.
Proof. destruct r; reflexivity. Qed.

Lemma with_dependencies_same (r : Route.t) :
  Route.with_dependencies r (Route.dependencies r ++ []) = r.
Proof. destruct r; unfold Route.with_dependencies; simpl. rewrite app_nil_r. reflexivity. Qed.

Lemma register_core_run (models : ModelsModule) (self : t) (st : Store) :
  register_core models self st =
  match create_request_model models "ItemCollectionURI"
          (ItemCollectionUri models) (item_collection_mixins self) with
  | None => inl SchemaConflictError
  | Some _ =>
      inr (tt,
           with_router st
             {| APIRouter.prefix := APIRouter.prefix (router st);
                APIRouter.routes :=
                  APIRouter.routes (router st)
                  ++ registered (register_core models self) st |})
  end.
Proof.
  destruct st as [s c a [p l] i].
  run_registrations.
  destruct (create_request_model models "ItemCollectionURI"
              (ItemCollectionUri models) (item_collection_mixins self)).
  - run_registrations. repeat rewrite <- app_assoc. reflexivity.
  - reflexivity.
Qed.

Lemma scope_matches_with_dependencies (s : Scope) (r : Route.t) (d : list Depends) :
  Routes.scope_matches s (Route.with_dependencies r d) = Routes.scope_matches s r.
Proof. reflexivity. Qed.

Lemma with_dependencies_twice (r : Route.t) (d d' : list Depends) :
  Route.with_dependencies (Route.with_dependencies r d) d'
  = Route.with_dependencies r d'.
Proof. reflexivity. Qed.

Lemma fold_add_scope_dependencies (d : list Depends) (scopes : list Scope) :
  forall r : Route.t,
    fold_left (Routes.add_scope_dependencies d) scopes r
    = Route.with_dependencies r
        (Route.dependencies r ++ overlay_dependencies r (scopes, d)).
Proof.
  unfold overlay_dependencies. simpl fst. simpl snd.
  induction scopes as [|s scopes IH]; intros r.
  - simpl. symmetry. apply with_dependencies_same.
  - simpl. rewrite IH. unfold Routes.add_scope_dependencies.
    destruct (Routes.scope_matches s r) eqn:Hs.
    + rewrite with_dependencies_twice. simpl Route.dependencies.
      rewrite <- app_assoc. reflexivity.
    + reflexivity.
Qed.

Lemma added_dependencies_with_dependencies overlays (r : Route.t) (d : list Depends) :
  added_dependencies overlays (Route.with_dependencies r d)
  = added_dependencies overlays r.
Proof. reflexivity. Qed.

Lemma fold_add_route_dependencies (overlays : list (list Scope * list Depends)) :
  forall table : list Route.t,
    fold_left
      (fun routes o => Routes.add_route_dependencies routes (fst o) (snd o))
      overlays table
    = map (fun r =>
             Route.with_dependencies r
               (Route.dependencies r ++ added_dependencies overlays r))
          table.
Proof.
  induction overlays as [|[scopes d] overlays IH]; intros table.
  - simpl. rewrite <- (map_id table) at 1. apply map_ext.
    intros r. symmetry. apply with_dependencies_same.
  - simpl fold_left. rewrite IH. unfold Routes.add_route_dependencies.
    rewrite map_map. apply map_ext. intros r.
    rewrite fold_add_scope_dependencies.
    rewrite with_dependencies_twice, added_dependencies_with_dependencies.
    simpl Route.dependencies. simpl added_dependencies.
    rewrite <- app_assoc. reflexivity.
Qed.

Lemma for_each_register_extension (exts : list ApiExtension.t) :
  forall st : Store,
    for_each exts register_extension st
    = inr (tt,
           with_app st
             (FastAPI.with_routes (app st)
                (FastAPI.routes (app st)
                 ++ flat_map ApiExtension.register exts))).
Proof.
  induction exts as [|ext exts IH]; intros st.
  - simpl. rewrite app_nil_r.
    destruct st as [s c a r i]; destruct a; reflexivity.
  - simpl. unfold bind. unfold register_extension at 1. unfold modify.
    rewrite IH. simpl. rewrite <- app_assoc. reflexivity.
Qed.

Lemma for_each_add_middleware (mws : list string) :
  forall st : Store,
    for_each mws
      (fun middleware =>
         modify (fun st => with_app st (FastAPI.add_middleware (app st) middleware)))
      st
    = inr (tt,
           with_app st
             {| FastAPI.routes := FastAPI.routes (app st);
                FastAPI.state_settings := FastAPI.state_settings (app st);
                FastAPI.state_router_prefix := FastAPI.state_router_prefix (app st);
                FastAPI.user_middleware := rev mws ++ FastAPI.user_middleware (app st);
                FastAPI.exception_handlers := FastAPI.exception_handlers (app st);
                FastAPI.openapi_customized := FastAPI.openapi_customized (app st) |}).
Proof.
  induction mws as [|m mws IH]; intros st.
  - simpl. destruct st as [s c a r i]; destruct a; reflexivity.
  - simpl. unfold bind, modify at 1. rewrite IH. simpl.
    rewrite <- app_assoc. reflexivity.
Qed.

Lemma for_each_add_route_dependencies (self : t)
    (overlays : list (list Scope * list Depends)) :
  forall st : Store,
    for_each overlays
      (fun '(scopes, dependencies) =>
         add_route_dependencies self scopes dependencies)
      st
    = inr (tt,
           with_app st
             (FastAPI.with_routes (app st)
                (fold_left
                   (fun routes o =>
                      Routes.add_route_dependencies routes (fst o) (snd o))
                   overlays (FastAPI.routes (app st))))).
Proof.
  induction overlays as [|[scopes d] overlays IH]; intros st.
  - simpl. destruct st as [s c a r i]; destruct a; reflexivity.
  - simpl. unfold bind. unfold add_route_dependencies at 1. unfold modify.
    rewrite IH. reflexivity.
Qed.

Lemma registered_core_settings (models : ModelsModule) (self : t) (st st1 : Store) :
  ApiSettings.enable_response_models (settings st1)
  = ApiSettings.enable_response_models (settings st) ->
  APIRouter.prefix (router st1) = APIRouter.prefix (router st) ->
  registered (register_core models self) st1
  = registered (register_core models self) st.
Proof.
  destruct st as [s c a [p l] i], st1 as [s1 c1 a1 [p1 l1] i1].
  cbn [settings router APIRouter.prefix]. intros He ->.
  run_registrations.
  destruct (create_request_model models "ItemCollectionURI"
              (ItemCollectionUri models) (item_collection_mixins self)).
  - run_registrations. rewrite He. reflexivity.
  - reflexivity.
Qed.

Lemma bind_modify {B : Type} (f : Store -> Store) (k : unit -> M B) (st : Store) :
  bind (modify f) k st = k tt (f st).
Proof. reflexivity. Qed.

Lemma bind_get {B : Type} (k : Store -> M B) (st : Store) :
  bind get k st = k st st.
Proof. reflexivity. Qed.

(** Bringing the store a method is applied to into record form. *)
Ltac norm_state :=
  cbv beta iota;
  match goal with
  | |- ?g ?st = ?rhs =>
      let st' :=
        eval cbv beta iota delta
          [with_settings with_client with_app with_router
           with_Settings_instance
           settings client app router Settings_instance
           FastAPI.with_routes FastAPI.with_state_settings
           FastAPI.with_state_router_prefix FastAPI.with_exception_handlers
           FastAPI.with_openapi FastAPI.include_router FastAPI.add_middleware
           FastAPI.routes FastAPI.state_settings FastAPI.state_router_prefix
           FastAPI.user_middleware FastAPI.exception_handlers
           FastAPI.openapi_customized
           APIRouter.prefix APIRouter.routes APIRouter.add_api_route
           add_exception_handlers] in st in
      change (g st' = rhs)
  end.

Lemma injected_settings_enable (self : t) (st : Store) :
  ApiSettings.enable_response_models (injected_settings self st)
  = ApiSettings.enable_response_models (settings st).
Proof.
  unfold injected_settings.
  destruct (get_extension self FieldsExtension); reflexivity.
Qed.

Lemma post_init_run (models : ModelsModule) (self : t) (st : Store) :
  __attrs_post_init__ models self st =
  match create_request_model models "ItemCollectionURI"
          (ItemCollectionUri models) (item_collection_mixins self) with
  | None => inl SchemaConflictError
  | Some _ =>
      if APIRouter.prefix_accepted (APIRouter.prefix (router st))
      then inr (tt, assembled models self st)
      else inl AssertionError
  end.
Proof.
  unfold __attrs_post_init__.
  rewrite bind_modify.
  assert (Hinj : forall (k : unit -> M unit) (st0 : Store),
    bind (match get_extension self FieldsExtension with
          | Some fields_ext =>
              modify (fun st => with_settings st
                (ApiSettings.with_default_includes (settings st)
                   (ApiExtension.default_includes fields_ext)))
          | None => ret tt
          end) k st0
    = k tt (with_settings st0
              (match get_extension self FieldsExtension with
               | Some fields_ext =>
                   ApiSettings.with_default_includes (settings st0)
                     (ApiExtension.default_includes fields_ext)
               | None => settings st0
               end))).
  { intros k st0. unfold bind.
    destruct (get_extension self FieldsExtension); simpl.
    - reflexivity.
    - destruct st0; reflexivity. }
  rewrite Hinj. clear Hinj.
  pose proof (injected_settings_enable self st) as Hen.
  pose proof (@registered_core_settings models self st) as Hreg.
  unfold assembled, table_before_overlays.
  set (core := registered (register_core models self) st) in *.
  change (match get_extension self FieldsExtension with
          | Some fields_ext =>
              ApiSettings.with_default_includes
                (settings (with_client st
                   {| Client.extensions := extensions self;
                      Client.stac_version := stac_version self;
                      Client.title := title self;
                      Client.description := description self |}))
                (ApiExtension.default_includes fields_ext)
          | None => settings (with_client st
                   {| Client.extensions := extensions self;
                      Client.stac_version := stac_version self;
                      Client.title := title self;
                      Client.description := description self |})
          end) with (injected_settings self st).
  set (s1 := injected_settings self st) in *.
  destruct st as [s c [ar ass arp amw aeh aoc] [p l] i].
  cbn [settings] in Hen.
  cbn [router APIRouter.prefix].
  norm_state.
  rewrite bind_modify. norm_state.
  rewrite bind_modify. norm_state.
  unfold bind at 1. rewrite register_core_run.
  destruct (create_request_model models "ItemCollectionURI"
              (ItemCollectionUri models) (item_collection_mixins self)) as [rm|];
    [|reflexivity].
  rewrite Hreg
    by (cbn [settings router APIRouter.prefix]; first [exact Hen | reflexivity]).
  norm_state.
  rewrite bind_modify. norm_state.
  rewrite bind_get. norm_state.
  rewrite bind_modify. norm_state.
  rewrite router_prefix_or_empty.
  unfold bind at 1. rewrite for_each_register_extension. norm_state.
  unfold bind at 1. unfold add_health_check at 1.
  rewrite bind_get. cbv beta iota.
  cbn [FastAPI.state_router_prefix app]. cbv beta iota.
  unfold APIRouter.new.
  destruct (APIRouter.prefix_accepted p); [|reflexivity].
  cbv beta iota.
  unfold modify at 1. norm_state.
  rewrite bind_modify. norm_state.
  rewrite bind_modify. norm_state.
  unfold bind at 1. rewrite for_each_add_middleware. norm_state.
  rewrite for_each_add_route_dependencies.
  cbv beta iota delta
    [with_app app FastAPI.with_routes FastAPI.routes FastAPI.state_settings
     FastAPI.state_router_prefix FastAPI.user_middleware
     FastAPI.exception_handlers FastAPI.openapi_customized
     settings client router Settings_instance APIRouter.prefix APIRouter.routes].
  rewrite fold_add_route_dependencies.
  rewrite (map_ext _ (fun r => r) (fun r => with_tags_same r)), map_id.
  repeat rewrite <- app_assoc.
  reflexivity.
Qed.

Lemma first_instance_spec (exts : list ApiExtension.t) (T : string) :
  match first_instance exts T with
  | Some ext =>
      exists before after,
        exts = before ++ ext :: after
        /\ isinstance ext T = true
        /\ forall e, In e before -> isinstance e T = false
  | None => forall e, In e exts -> isinstance e T = false
  end.
Proof.
  induction exts as [|x exts IH]; simpl.
  - intros e [].
  - destruct (isinstance x T) eqn:Hx.
    + exists [], exts. repeat split; auto. intros e [].
    + destruct (first_instance exts T) as [ext|].
      * destruct IH as (before & after & -> & Hi & Hb).
        exists (x :: before), after. repeat split; auto.
        intros e [<-|He]; auto.
      * intros e [<-|He]; auto.
Qed.

(** C4: [get_extension(T)] returns the first element of the extensions
    list that is an instance of [T], and [None] when there is none; and
    what each registration method does is fixed by the results of
    [get_extension] at the fields, collection-search and pagination
    classes, so at most one instance of a class is ever used. *)
Theorem get_extension_first_instance (models : ModelsModule) (self : t)
    (T : string) :
  match get_extension self T with
  | Some ext =>
      exists before after,
        extensions self = before ++ ext :: after
        /\ isinstance ext T = true
        /\ forall e, In e before -> isinstance e T = false
  | None => forall e, In e (extensions self) -> isinstance e T = false
  end
  /\ forall (exts : list ApiExtension.t) (st : Store),
       first_instance exts FieldsExtension
       = get_extension self FieldsExtension ->
       first_instance exts CollectionSearchExtension
       = get_extension self CollectionSearchExtension ->
       first_instance exts (pagination_extension self)
       = get_extension self (pagination_extension self) ->
       Forall (fun register => register (with_extensions self exts) st
                               = register self st)
              (registration_methods models).
Proof.
  split.
  - apply first_instance_spec.
  - intros exts st Hf Hc Hp.
    destruct st as [s c a [p l] i].
    unfold registration_methods.
    repeat (apply Forall_cons || apply Forall_nil);
      run_registrations;
      unfold item_collection_mixins, get_extension in *;
      cbn [extensions response_class search_post_request_model
           search_get_request_model search_catalog_post_request_model
           search_catalog_get_request_model collections_get_request_model
           pagination_extension with_extensions];
      rewrite ?Hf, ?Hc, ?Hp; reflexivity.
Qed.

Lemma get_extension_first_instance_witness :
  Forall (fun register =>
            register
              (with_extensions
                 (sample_api [sample_fields_extension; sample_pagination_extension;
                              sample_pagination_extension_2] [])
                 [sample_pagination_extension; sample_fields_extension])
              (sample_store true "")
            = register
                (sample_api [sample_fields_extension; sample_pagination_extension;
                             sample_pagination_extension_2] [])
                (sample_store true ""))
         (registration_methods sample_models).
Proof.
  apply (proj2 (get_extension_first_instance sample_models
                  (sample_api [sample_fields_extension; sample_pagination_extension;
                               sample_pagination_extension_2] [])
                  FieldsExtension));
    reflexivity.
Defined.

(** C5: in [register_get_item_collection], when an instance of the
    configured pagination extension class is active the request model is
    the one [create_request_model] builds from the [ItemCollectionUri]
    base and that extension's [GET] mixin; when none is active it is the
    one built from [ItemCollectionUri] with no mixins. *)
Theorem item_collection_request_model (models : ModelsModule) (self : t)
    (st : Store) :
  match get_extension self (pagination_extension self) with
  | Some pagination_ext =>
      registers_item_collection_with models self st
        (Some [ApiExtension.GET pagination_ext])
  | None => registers_item_collection_with models self st None
  end.
Proof.
  unfold registers_item_collection_with, register_get_item_collection,
    item_collection_mixins, bind, get, raise.
  destruct (get_extension self (pagination_extension self)) as [ext|];
    match goal with
    | |- context [create_request_model ?m ?n ?b ?x] =>
        destruct (create_request_model m n b x) as [rm|]
    end;
    try reflexivity;
    eexists; (split; [reflexivity | repeat split]).
Qed.

Example item_collection_request_model_paginated :
  map Route.endpoint
    (registered
       (register_get_item_collection sample_models
          (sample_api [sample_fields_extension; sample_pagination_extension] []))
       (sample_store true ""))
  = [ create_async_endpoint item_collection
        {| model_name := "ItemCollectionURI";
           model_fields := [("catalog_id", "str"); ("collection_id", "str");
                            ("limit", "int"); ("token", "str")] |} ].
Proof. reflexivity. Qed.

Example item_collection_request_model_minimal :
  map Route.endpoint
    (registered
       (register_get_item_collection sample_models
          (sample_api [sample_fields_extension] []))
       (sample_store true ""))
  = [ create_async_endpoint item_collection
        {| model_name := "ItemCollectionURI";
           model_fields := [("catalog_id", "str"); ("collection_id", "str");
                            ("limit", "int")] |} ].
Proof. reflexivity. Qed.

(** C6: [register_core] registers the routes in the fixed order: the
    landing page, the conformance classes, the item-level route, the
    search routes, then the collection and catalog routes. *)
Theorem register_core_order (models : ModelsModule) (self : t) (st : Store)
    (request_model : RequestModel) :
  create_request_model models "ItemCollectionURI" (ItemCollectionUri models)
    (item_collection_mixins self) = Some request_model ->
  exists st' : Store,
    register_core models self st = inr (tt, st')
    /\ APIRouter.routes (router st')
       = APIRouter.routes (router st)
         ++ registered (register_core models self) st
    /\ map route_id (registered (register_core models self) st)
       = map (under (APIRouter.prefix (router st)))
           ([landing_route_id] ++ [conformance_route_id] ++ item_route_ids
            ++ search_route_ids ++ listing_route_ids).
Proof.
  intros Hrm. rewrite register_core_run, Hrm.
  eexists. split; [reflexivity|]. split; [reflexivity|].
  destruct st as [s c a [p l] i].
  run_core Hrm. reflexivity.
Qed.

Lemma register_core_order_witness :
  exists st' : Store,
    register_core sample_models (sample_api [sample_pagination_extension] [])
      (sample_store true "/api") = inr (tt, st')
    /\ APIRouter.routes (router st')
       = APIRouter.routes (router (sample_store true "/api"))
         ++ registered
              (register_core sample_models
                 (sample_api [sample_pagination_extension] []))
              (sample_store true "/api")
    /\ map route_id
         (registered
            (register_core sample_models
               (sample_api [sample_pagination_extension] []))
            (sample_store true "/api"))
       = map (under (APIRouter.prefix (router (sample_store true "/api"))))
           ([landing_route_id] ++ [conformance_route_id] ++ item_route_ids
            ++ search_route_ids ++ listing_route_ids).
Proof.
  apply (@register_core_order sample_models
           (sample_api [sample_pagination_extension] [])
           (sample_store true "/api")
           {| model_name := "ItemCollectionURI";
              model_fields := [("catalog_id", "str"); ("collection_id", "str");
                               ("limit", "int"); ("token", "str")] |}).
  reflexivity.
Defined.

Lemma post_init_success (models : ModelsModule) (self : t) (st st' : Store) (u : unit) :
  __attrs_post_init__ models self st = inr (u, st') ->
  st' = assembled models self st
  /\ exists request_model,
       create_request_model models "ItemCollectionURI" (ItemCollectionUri models)
         (item_collection_mixins self) = Some request_model.
Proof.
  rewrite post_init_run.
  destruct (create_request_model models "ItemCollectionURI"
              (ItemCollectionUri models) (item_collection_mixins self)) as [rm|].
  - destruct (APIRouter.prefix_accepted (APIRouter.prefix (router st)));
      [|discriminate].
    intros H. split; [congruence | exists rm; reflexivity].
  - discriminate.
Qed.

Lemma registered_core_length (models : ModelsModule) (self : t) (st : Store)
    (request_model : RequestModel) :
  create_request_model models "ItemCollectionURI" (ItemCollectionUri models)
    (item_collection_mixins self) = Some request_model ->
  length (registered (register_core models self) st) = 13.
Proof.
  intros Hrm. destruct st as [s c a [p l] i].
  run_core Hrm. reflexivity.
Qed.

Lemma assembled_core_route_run (models : ModelsModule) (self : t) (st : Store)
    (i : nat) (r : Route.t) :
  nth_error (registered (register_core models self) st) i = Some r ->
  assembled_core_route st (assembled models self st) i
  = Some (Route.with_dependencies r
            (Route.dependencies r
             ++ added_dependencies (route_dependencies self) r)).
Proof.
  intros Hi. unfold assembled_core_route, core_offset, assembled.
  cbn [app FastAPI.routes]. unfold table_before_overlays.
  rewrite nth_error_map.
  rewrite nth_error_app2 by lia.
  rewrite nth_error_app2 by lia.
  replace (length (FastAPI.routes (app st))
           + length (APIRouter.routes (router st)) + i
           - length (FastAPI.routes (app st))
           - length (APIRouter.routes (router st))) with i by lia.
  rewrite nth_error_app1 by (apply nth_error_Some; congruence).
  rewrite Hi. reflexivity.
Qed.

Lemma core_slice_run (models : ModelsModule) (self : t) (st : Store) :
  length (registered (register_core models self) st) = 13 ->
  firstn 13 (skipn (core_offset st) (FastAPI.routes (app (assembled models self st))))
  = map (fun r =>
           Route.with_dependencies r
             (Route.dependencies r
              ++ added_dependencies (route_dependencies self) r))
        (registered (register_core models self) st).
Proof.
  intros Hlen. unfold core_offset, assembled.
  cbn [app FastAPI.routes]. unfold table_before_overlays.
  rewrite skipn_map, firstn_map. f_equal.
  rewrite app_assoc, skipn_app.
  rewrite length_app.
  rewrite (skipn_all2 (n := length (FastAPI.routes (app st))
                            + length (APIRouter.routes (router st))))
    by (rewrite length_app; lia).
  rewrite Nat.sub_diag. cbn [skipn List.app].
  rewrite firstn_app, Hlen. simpl (13 - 13). simpl (firstn 0 _).
  rewrite app_nil_r. rewrite <- Hlen. apply firstn_all.
Qed.

(** C2, as amended: the declared response model of the route that
    [register_get_collections] registers, as found in the assembled
    table, is the fixed [Collections] schema when
    [enable_response_models] is set and no collection-search extension
    is in the extensions list, and is absent when a collection-search
    extension is active or [enable_response_models] is not set. *)
Theorem collections_response_model (models : ModelsModule) (self : t)
    (st st' : Store) :
  __attrs_post_init__ models self st = inr (tt, st') ->
  exists r : Route.t,
    assembled_core_route st st' 7 = Some r
    /\ registered (register_get_collections self) st
       = [Route.with_dependencies r []]
    /\ route_id r
       = under (APIRouter.prefix (router st))
           ("Get Collections", "/collections", ["GET"])
    /\ Route.response_model r
       = if ApiSettings.enable_response_models (settings st)
         then match get_extension self CollectionSearchExtension with
              | None => Some Collections
              | Some _ => None
              end
         else None.
Proof.
  intros H. apply post_init_success in H as [-> [rm Hrm]].
  destruct st as [s c a [p l] i].
  eexists. split.
  - apply assembled_core_route_run.
    run_core Hrm. reflexivity.
  - repeat split.
    cbn [Route.response_model Route.with_dependencies Route.with_path settings].
    destruct (ApiSettings.enable_response_models s); [|reflexivity].
    destruct (get_extension self CollectionSearchExtension); reflexivity.
Qed.

Lemma collections_response_model_witness :
  exists r : Route.t,
    assembled_core_route (sample_store true "")
      (assembled sample_models
         (sample_api [sample_collection_search_extension] [sample_overlay])
         (sample_store true "")) 7 = Some r
    /\ registered
         (register_get_collections
            (sample_api [sample_collection_search_extension] [sample_overlay]))
         (sample_store true "")
       = [Route.with_dependencies r []]
    /\ route_id r = ("Get Collections", "/collections", ["GET"])
    /\ Route.response_model r = None.
Proof.
  apply (@collections_response_model sample_models
           (sample_api [sample_collection_search_extension] [sample_overlay])
           (sample_store true "")).
  vm_compute. reflexivity.
Defined.

(** C2 fails as stated: with no collection-search extension in the
    list and [enable_response_models] not set, the route registered by
    [register_get_collections] declares no response model. *)
Lemma collections_response_model_counterexample :
  get_extension (sample_api [] []) CollectionSearchExtension = None
  /\ __attrs_post_init__ sample_models (sample_api [] []) (sample_store false "")
     = inr (tt, assembled sample_models (sample_api [] []) (sample_store false ""))
  /\ map Route.response_model
       (registered (register_get_collections (sample_api [] []))
          (sample_store false "")) = [None]
  /\ option_map Route.response_model
       (assembled_core_route (sample_store false "")
          (assembled sample_models (sample_api [] []) (sample_store false "")) 7)
     <> Some (Some Collections).
Proof.
  split; [reflexivity|]. split; [vm_compute; reflexivity|].
  split; [vm_compute; reflexivity|].
  vm_compute. discriminate.
Qed.

(** C3, as amended: each of the four search routes, as found in the
    assembled table, declares no response model when a fields extension
    is in the extensions list, and declares the fixed [ItemCollection]
    schema when none is and [enable_response_models] is set; with
    [enable_response_models] not set it declares none either way. *)
Theorem search_response_models (models : ModelsModule) (self : t)
    (st st' : Store) :
  __attrs_post_init__ models self st = inr (tt, st') ->
  exists rs : list Route.t,
    map (assembled_core_route st st') [3; 4; 5; 6] = map Some rs
    /\ registered (register_post_global_search self) st
       ++ registered (register_get_global_search self) st
       ++ registered (register_post_search self) st
       ++ registered (register_get_search self) st
       = map (fun r => Route.with_dependencies r []) rs
    /\ map route_id rs
       = map (under (APIRouter.prefix (router st))) search_route_ids
    /\ Forall
         (fun r =>
            Route.response_model r
            = match get_extension self FieldsExtension with
              | Some _ => None
              | None =>
                  if ApiSettings.enable_response_models (settings st)
                  then Some ItemCollection else None
              end)
         rs.
Proof.
  intros H. apply post_init_success in H as [-> [rm Hrm]].
  destruct st as [s c a [p l] i].
  eexists [_; _; _; _]. split.
  - cbn [map]. repeat f_equal;
      apply assembled_core_route_run;
      run_core Hrm; reflexivity.
  - split; [reflexivity|]. split; [reflexivity|].
    repeat (apply Forall_cons || apply Forall_nil);
      cbn [Route.response_model Route.with_dependencies Route.with_path settings];
      destruct (ApiSettings.enable_response_models s);
      destruct (get_extension self FieldsExtension); reflexivity.
Qed.

Lemma search_response_models_witness :
  exists rs : list Route.t,
    map (assembled_core_route (sample_store true "/api")
           (assembled sample_models (sample_api [] [sample_overlay])
              (sample_store true "/api")))
        [3; 4; 5; 6] = map Some rs
    /\ registered (register_post_global_search (sample_api [] [sample_overlay]))
         (sample_store true "/api")
       ++ registered (register_get_global_search (sample_api [] [sample_overlay]))
            (sample_store true "/api")
       ++ registered (register_post_search (sample_api [] [sample_overlay]))
            (sample_store true "/api")
       ++ registered (register_get_search (sample_api [] [sample_overlay]))
            (sample_store true "/api")
       = map (fun r => Route.with_dependencies r []) rs
    /\ map route_id rs = map (under "/api") search_route_ids
    /\ Forall (fun r => Route.response_model r = Some ItemCollection) rs.
Proof.
  apply (@search_response_models sample_models (sample_api [] [sample_overlay])
           (sample_store true "/api")).
  vm_compute. reflexivity.
Defined.

(** C3 fails as stated: with no fields extension in the list and
    [enable_response_models] not set, the search routes declare no
    response model. *)
Lemma search_response_models_counterexample :
  get_extension (sample_api [] []) FieldsExtension = None
  /\ __attrs_post_init__ sample_models (sample_api [] []) (sample_store false "")
     = inr (tt, assembled sample_models (sample_api [] []) (sample_store false ""))
  /\ map (fun i =>
            option_map (fun r => (Route.path r, Route.methods r,
                                  Route.response_model r))
              (assembled_core_route (sample_store false "")
                 (assembled sample_models (sample_api [] [])
                    (sample_store false "")) i))
         [3; 4; 5; 6]
     = [ Some ("/search", ["POST"], None);
         Some ("/search", ["GET"], None);
         Some ("/catalogs/{catalog_id}/search", ["POST"], None);
         Some ("/catalogs/{catalog_id}/search", ["GET"], None) ]
  /\ option_map Route.response_model
       (assembled_core_route (sample_store false "")
          (assembled sample_models (sample_api [] []) (sample_store false "")) 4)
     <> Some (Some ItemCollection).
Proof.
  split; [reflexivity|]. split; [vm_compute; reflexivity|].
  split; [vm_compute; reflexivity|].
  vm_compute. discriminate.
Qed.

(** C9: when [enable_response_models] is not set, every route
    registered by [register_core] has no response model, and two
    assemblies that differ only in their extensions list declare the
    same response models for the core routes. *)
Theorem core_response_models_disabled (models : ModelsModule) (self : t)
    (exts : list ApiExtension.t) (st st1 st2 : Store) :
  ApiSettings.enable_response_models (settings st) = false ->
  __attrs_post_init__ models self st = inr (tt, st1) ->
  __attrs_post_init__ models (with_extensions self exts) st = inr (tt, st2) ->
  length (registered (register_core models self) st) = 13
  /\ Forall (fun r => Route.response_model r = None)
       (registered (register_core models self) st)
  /\ core_response_models st st1 = repeat None 13
  /\ core_response_models st st2 = core_response_models st st1.
Proof.
  destruct st as [s c a [p l] i]. cbn [settings].
  intros Hoff H1 H2.
  apply post_init_success in H1 as [-> [rm1 Hrm1]].
  apply post_init_success in H2 as [-> [rm2 Hrm2]].
  assert (Hnone : forall self0 rm0,
    create_request_model models "ItemCollectionURI" (ItemCollectionUri models)
      (item_collection_mixins self0) = Some rm0 ->
    map Route.response_model
      (registered (register_core models self0)
         {| settings := s; client := c; app := a;
            router := {| APIRouter.prefix := p; APIRouter.routes := l |};
            Settings_instance := i |})
    = repeat None 13).
  { intros self0 rm0 Hrm0. run_core Hrm0. rewrite Hoff. reflexivity. }
  assert (Hslice : forall self0 rm0,
    create_request_model models "ItemCollectionURI" (ItemCollectionUri models)
      (item_collection_mixins self0) = Some rm0 ->
    core_response_models
      {| settings := s; client := c; app := a;
         router := {| APIRouter.prefix := p; APIRouter.routes := l |};
         Settings_instance := i |}
      (assembled models self0
         {| settings := s; client := c; app := a;
            router := {| APIRouter.prefix := p; APIRouter.routes := l |};
            Settings_instance := i |}) = repeat None 13).
  { intros self0 rm0 Hrm0. unfold core_response_models.
    rewrite core_slice_run by (eapply registered_core_length; eassumption).
    rewrite map_map. cbn [Route.response_model Route.with_dependencies].
    eapply Hnone; eassumption. }
  split; [eapply registered_core_length; eassumption|].
  split.
  - specialize (Hnone self rm1 Hrm1).
    apply Forall_forall. intros r Hr.
    apply (in_map Route.response_model) in Hr. rewrite Hnone in Hr.
    apply repeat_spec in Hr. exact Hr.
  - rewrite (Hslice self rm1 Hrm1), (Hslice _ rm2 Hrm2). split; reflexivity.
Qed.

Lemma core_response_models_disabled_witness :
  length (registered
            (register_core sample_models (sample_api [] [sample_overlay]))
            (sample_store false "")) = 13
  /\ Forall (fun r => Route.response_model r = None)
       (registered
          (register_core sample_models (sample_api [] [sample_overlay]))
          (sample_store false ""))
  /\ core_response_models (sample_store false "")
       (assembled sample_models (sample_api [] [sample_overlay])
          (sample_store false "")) = repeat None 13
  /\ core_response_models (sample_store false "")
       (assembled sample_models
          (with_extensions (sample_api [] [sample_overlay])
             [sample_fields_extension; sample_collection_search_extension;
              sample_pagination_extension])
          (sample_store false ""))
     = core_response_models (sample_store false "")
         (assembled sample_models (sample_api [] [sample_overlay])
            (sample_store false "")).
Proof.
  apply (@core_response_models_disabled sample_models
           (sample_api [] [sample_overlay])
           [sample_fields_extension; sample_collection_search_extension;
            sample_pagination_extension]
           (sample_store false "")); vm_compute; reflexivity.
Defined.

(** C7: every overlay of [route_dependencies] is applied once, in
    declaration order, to the table in which the core routes, the
    extensions' routes and the health check already are; an overlay puts
    its dependencies after the dependencies a matched route already has
    and removes none. *)
Theorem overlays_after_all_routes (models : ModelsModule) (self : t)
    (st st' : Store) :
  __attrs_post_init__ models self st = inr (tt, st') ->
  let table :=
    FastAPI.routes (app st)
    ++ APIRouter.routes (router st)
    ++ registered (register_core models self) st
    ++ flat_map ApiExtension.register (extensions self)
    ++ [ping_route (APIRouter.prefix (router st))] in
  FastAPI.routes (app st')
  = fold_left
      (fun routes overlay =>
         Routes.add_route_dependencies routes (fst overlay) (snd overlay))
      (route_dependencies self) table
  /\ FastAPI.routes (app st')
     = map (fun r =>
              Route.with_dependencies r
                (Route.dependencies r
                 ++ flat_map (overlay_dependencies r) (route_dependencies self)))
           table
  /\ length (registered (register_core models self) st) = 13.
Proof.
  intros H table. apply post_init_success in H as [-> [rm Hrm]].
  split; [|split].
  - rewrite fold_add_route_dependencies. reflexivity.
  - reflexivity.
  - eapply registered_core_length; eassumption.
Qed.

Lemma overlays_after_all_routes_witness :
  FastAPI.routes
    (app (assembled sample_models sample_overlaid_api (sample_store true "")))
  = map (fun r =>
           Route.with_dependencies r
             (Route.dependencies r
              ++ flat_map (overlay_dependencies r)
                   (route_dependencies sample_overlaid_api)))
        (FastAPI.routes (app (sample_store true ""))
         ++ APIRouter.routes (router (sample_store true ""))
         ++ registered (register_core sample_models sample_overlaid_api)
              (sample_store true "")
         ++ flat_map ApiExtension.register (extensions sample_overlaid_api)
         ++ [ping_route (APIRouter.prefix (router (sample_store true "")))]).
Proof.
  refine (proj1 (proj2
    (@overlays_after_all_routes sample_models sample_overlaid_api
       (sample_store true "") _ _))).
  vm_compute. reflexivity.
Defined.

Example overlays_accumulate :
  map (fun r => (Route.path r, Route.methods r,
                 map dependency (Route.dependencies r)))
    (skipn 13
       (FastAPI.routes
          (app (assembled sample_models sample_overlaid_api
                  (sample_store true "")))))
  = [ ("/search", ["GET"], ["rate_limit"; "oauth2_scheme"; "oauth2_scheme"]);
      ("/_mgmt/ping", ["GET"], ["audit_log"]) ].
Proof. reflexivity. Qed.

(** C10: assembly sets the client's [extensions], [stac_version],
    [title] and [description] to the [StacApi]'s, and overwrites
    [settings.default_includes] with the fields extension's exactly when
    an instance of the fields extension is in the extensions list; the
    settings are left as they were otherwise. *)
Theorem post_init_mutates_collaborators (models : ModelsModule) (self : t)
    (st st' : Store) :
  __attrs_post_init__ models self st = inr (tt, st') ->
  Client.extensions (client st') = extensions self
  /\ Client.stac_version (client st') = stac_version self
  /\ Client.title (client st') = title self
  /\ Client.description (client st') = description self
  /\ ApiSettings.enable_response_models (settings st')
     = ApiSettings.enable_response_models (settings st)
  /\ ((exists e, In e (extensions self) /\ isinstance e FieldsExtension = true) ->
      exists fields_ext,
        get_extension self FieldsExtension = Some fields_ext
        /\ ApiSettings.default_includes (settings st')
           = ApiExtension.default_includes fields_ext)
  /\ ((forall e, In e (extensions self) -> isinstance e FieldsExtension = false) ->
      settings st' = settings st).
Proof.
  intros H. apply post_init_success in H as [-> _].
  cbn [assembled client settings Client.extensions Client.stac_version
       Client.title Client.description].
  repeat (split; [reflexivity|]).
  unfold injected_settings.
  pose proof (first_instance_spec (extensions self) FieldsExtension) as Hspec.
  fold (get_extension self FieldsExtension) in Hspec.
  destruct (get_extension self FieldsExtension) as [f|].
  - split; [reflexivity|]. split.
    + intros _. exists f. split; reflexivity.
    + intros Hnone. destruct Hspec as (before & after & Heq & Hi & _).
      rewrite Hnone in Hi; [discriminate|].
      rewrite Heq. apply in_or_app. right. left. reflexivity.
  - split; [reflexivity|]. split.
    + intros (e & He & Hi). rewrite (Hspec e He) in Hi. discriminate.
    + reflexivity.
Qed.

Lemma post_init_mutates_collaborators_witness :
  Client.extensions
    (client (assembled sample_models
               (sample_api [sample_pagination_extension; sample_fields_extension] [])
               (sample_store true "")))
  = [sample_pagination_extension; sample_fields_extension]
  /\ ApiSettings.default_includes
       (settings (assembled sample_models
                    (sample_api [sample_pagination_extension; sample_fields_extension] [])
                    (sample_store true "")))
     = ["id"; "type"; "geometry"].
Proof.
  assert (Hrun :
    __attrs_post_init__ sample_models
      (sample_api [sample_pagination_extension; sample_fields_extension] [])
      (sample_store true "")
    = inr (tt, assembled sample_models
                 (sample_api [sample_pagination_extension; sample_fields_extension] [])
                 (sample_store true ""))) by (vm_compute; reflexivity).
  destruct (@post_init_mutates_collaborators sample_models
              (sample_api [sample_pagination_extension; sample_fields_extension] [])
              (sample_store true "") _ Hrun)
    as (H1 & _ & _ & _ & _ & H6 & _).
  split; [exact H1|].
  destruct H6 as (f & Hf & Hd).
  - exists sample_fields_extension.
    split; [right; left; reflexivity | reflexivity].
  - injection Hf as <-. exact Hd.
Defined.

Example post_init_keeps_default_includes :
  settings (assembled sample_models (sample_api [sample_pagination_extension] [])
              (sample_store true ""))
  = settings (sample_store true "").
Proof. reflexivity. Qed.

Lemma key_eqb_eq (k1 k2 : string * string) : key_eqb k1 k2 = true <-> k1 = k2.
Proof.
  destruct k1 as [p1 m1], k2 as [p2 m2]. unfold key_eqb. simpl.
  rewrite andb_true_iff, !String.eqb_eq. split.
  - intros [-> ->]. reflexivity.
  - intros [= -> ->]. split; reflexivity.
Qed.

Lemma distinctb_NoDup (keys : list (string * string)) :
  distinctb keys = true <-> NoDup keys.
Proof.
  induction keys as [|k keys IH]; simpl.
  - split; [constructor | reflexivity].
  - rewrite andb_true_iff, negb_true_iff, IH. split.
    + intros [Hk Hn]. constructor; [|exact Hn].
      intros Hin. assert (existsb (key_eqb k) keys = true) as Hex.
      { apply existsb_exists. exists k. split; [exact Hin | apply key_eqb_eq; reflexivity]. }
      congruence.
    + intros Hn. inversion Hn as [|? ? Hk Hn']; subst. split; [|exact Hn'].
      destruct (existsb (key_eqb k) keys) eqn:Hex; [|reflexivity].
      apply existsb_exists in Hex as (k' & Hin & Heq).
      apply key_eqb_eq in Heq. subst k'. contradiction.
Qed.

Lemma prefixed_inj (p : string) (k1 k2 : string * string) :
  prefixed p k1 = prefixed p k2 -> k1 = k2.
Proof.
  destruct k1 as [p1 m1], k2 as [p2 m2]. unfold prefixed. simpl.
  intros [= Hp ->]. apply append_inj_l in Hp. subst. reflexivity.
Qed.

Lemma NoDup_prefixed (p : string) (keys : list (string * string)) :
  NoDup keys -> NoDup (map (prefixed p) keys).
Proof.
  induction 1 as [|k keys Hk Hn IH]; simpl; constructor.
  - intros Hin. apply in_map_iff in Hin as (k' & Heq & Hin).
    apply prefixed_inj in Heq. subst k'. contradiction.
  - exact IH.
Qed.

Lemma table_keys_app (l1 l2 : list Route.t) :
  table_keys (l1 ++ l2) = table_keys l1 ++ table_keys l2.
Proof. apply flat_map_app. Qed.

Lemma table_keys_with_dependencies (f : Route.t -> list Depends)
    (table : list Route.t) :
  table_keys (map (fun r => Route.with_dependencies r (f r)) table)
  = table_keys table.
Proof.
  unfold table_keys.
  induction table as [|r table IH]; [reflexivity|].
  cbn [map flat_map]. rewrite IH. reflexivity.
Qed.

Lemma own_table_keys (models : ModelsModule) (self : t) (st : Store)
    (request_model : RequestModel) :
  create_request_model models "ItemCollectionURI" (ItemCollectionUri models)
    (item_collection_mixins self) = Some request_model ->
  table_keys (registered (register_core models self) st
              ++ [ping_route (APIRouter.prefix (router st))])
  = map (prefixed (APIRouter.prefix (router st))) own_keys.
Proof.
  intros Hrm. destruct st as [s c a [p l] i].
  run_core Hrm. reflexivity.
Qed.

(** C1, as amended: assembly compares no route with the routes already
    registered, so every route is kept and assembly never fails with a
    [RouteConflictError]; the routes registered by [register_core] and
    the health check have pairwise distinct (path, method) pairs, and
    the pairs of the final table are unique whenever the routes that the
    application and the router came with and those added by the
    extension hooks have unique pairs, none of them a pair of a core
    route or of the health check. *)
Theorem no_route_conflict_check (models : ModelsModule) (self : t) (st : Store) :
  (forall p m : string,
     __attrs_post_init__ models self st <> inl (RouteConflictError p m))
  /\ forall st' : Store,
       __attrs_post_init__ models self st = inr (tt, st') ->
       let foreign :=
         table_keys (FastAPI.routes (app st))
         ++ table_keys (APIRouter.routes (router st))
         ++ table_keys (flat_map ApiExtension.register (extensions self)) in
       let own := map (prefixed (APIRouter.prefix (router st))) own_keys in
       table_keys (FastAPI.routes (app st'))
       = table_keys (FastAPI.routes (app st))
         ++ table_keys (APIRouter.routes (router st))
         ++ table_keys (registered (register_core models self) st)
         ++ table_keys (flat_map ApiExtension.register (extensions self))
         ++ [((APIRouter.prefix (router st) ++ "/_mgmt/ping")%string, "GET")]
       /\ table_keys (registered (register_core models self) st
                      ++ [ping_route (APIRouter.prefix (router st))]) = own
       /\ NoDup own
       /\ (NoDup foreign ->
           (forall k, In k foreign -> ~ In k own) ->
           NoDup (table_keys (FastAPI.routes (app st')))).
Proof.
  split.
  - intros p m. rewrite post_init_run.
    destruct (create_request_model models "ItemCollectionURI"
                (ItemCollectionUri models) (item_collection_mixins self));
      [destruct (APIRouter.prefix_accepted (APIRouter.prefix (router st)))|];
      discriminate.
  - intros st' H foreign own. apply post_init_success in H as [-> [rm Hrm]].
    assert (Hkeys :
      table_keys (FastAPI.routes (app (assembled models self st)))
      = table_keys (FastAPI.routes (app st))
        ++ table_keys (APIRouter.routes (router st))
        ++ table_keys (registered (register_core models self) st)
        ++ table_keys (flat_map ApiExtension.register (extensions self))
        ++ [((APIRouter.prefix (router st) ++ "/_mgmt/ping")%string, "GET")]).
    { cbn [assembled app FastAPI.routes].
      rewrite table_keys_with_dependencies. unfold table_before_overlays.
      rewrite !table_keys_app. reflexivity. }
    assert (Hown :
      table_keys (registered (register_core models self) st
                  ++ [ping_route (APIRouter.prefix (router st))]) = own).
    { eapply own_table_keys; eassumption. }
    assert (Hnd : NoDup own).
    { apply NoDup_prefixed. apply distinctb_NoDup. reflexivity. }
    split; [exact Hkeys|]. split; [exact Hown|]. split; [exact Hnd|].
    intros Hf Hdisj. rewrite Hkeys.
    rewrite table_keys_app in Hown. cbn [table_keys flat_map ping_route
      Route.keys Route.path Route.methods map List.app] in Hown.
    set (ka := table_keys (FastAPI.routes (app st))) in *.
    set (kb := table_keys (APIRouter.routes (router st))) in *.
    set (kc := table_keys (registered (register_core models self) st)) in *.
    set (ke := table_keys (flat_map ApiExtension.register (extensions self))) in *.
    set (kp := [((APIRouter.prefix (router st) ++ "/_mgmt/ping")%string, "GET")]) in *.
    apply (Permutation.Permutation_NoDup (l := (ka ++ kb ++ ke) ++ (kc ++ kp))).
    + rewrite <- !app_assoc.
      apply Permutation.Permutation_app_head.
      apply Permutation.Permutation_app_head.
      rewrite !app_assoc. apply Permutation.Permutation_app_tail.
      apply Permutation.Permutation_app_comm.
    + apply NoDup_app.
      * exact Hf.
      * rewrite Hown. exact Hnd.
      * intros k Hk. rewrite Hown. apply Hdisj. exact Hk.
Qed.

Lemma no_route_conflict_check_witness :
  NoDup
    (table_keys
       (FastAPI.routes
          (app (assembled sample_models
                  (sample_api [sample_fields_extension; sample_pagination_extension]
                     [sample_overlay])
                  (sample_store true "/api"))))).
Proof.
  refine (proj2 (proj2 (proj2
            (proj2 (@no_route_conflict_check sample_models
                      (sample_api [sample_fields_extension; sample_pagination_extension]
                         [sample_overlay])
                      (sample_store true "/api")) _ _))) _ _).
  - vm_compute. reflexivity.
  - constructor.
  - intros k [].
Defined.

(** C1 fails as stated: an extension whose hook registers a second
    [GET /search] is assembled without error, and the final table holds
    the pair ("/search", "GET") twice. *)
Lemma no_route_conflict_check_counterexample :
  __attrs_post_init__ sample_models
    (sample_api [sample_search_override_extension] []) (sample_store true "")
  = inr (tt, assembled sample_models
               (sample_api [sample_search_override_extension] [])
               (sample_store true ""))
  /\ map Route.name
       (filter (fun r => existsb (key_eqb ("/search", "GET")) (Route.keys r))
          (FastAPI.routes
             (app (assembled sample_models
                     (sample_api [sample_search_override_extension] [])
                     (sample_store true "")))))
     = ["Search"; "Free Text Search"]
  /\ ~ NoDup
         (table_keys
            (FastAPI.routes
               (app (assembled sample_models
                       (sample_api [sample_search_override_extension] [])
                       (sample_store true ""))))).
Proof.
  split; [vm_compute; reflexivity|]. split; [vm_compute; reflexivity|].
  intros Hn. apply distinctb_NoDup in Hn. vm_compute in Hn. discriminate.
Qed.








Example health_check_under_prefix :
  response_body
    (FastAPI.routes
       (app (assembled sample_models sample_self (sample_store true "/api"))))
    "/api/_mgmt/ping" "GET"
  = Some [("message", "PONG")].
Proof. vm_compute. reflexivity. Qed.


(** ** Further properties of the class *)

Lemma NoDup_app_common {A : Type} (x : A) (l1 l2 : list A) :
  In x l1 -> In x l2 -> ~ NoDup (l1 ++ l2).
Proof.
  induction l1 as [|a l1 IH]; simpl; intros H1 H2 Hn.
  - exact H1.
  - inversion Hn as [|? ? Ha Hn']; subst. destruct H1 as [->|H1].
    + apply Ha. apply in_or_app. right. exact H2.
    + exact (IH H1 H2 Hn').
Qed.

Lemma registered_core_attributes (models : ModelsModule) (self1 self2 : t)
    (st : Store) :
  response_class self1 = response_class self2 ->
  search_post_request_model self1 = search_post_request_model self2 ->
  search_get_request_model self1 = search_get_request_model self2 ->
  search_catalog_post_request_model self1
  = search_catalog_post_request_model self2 ->
  search_catalog_get_request_model self1
  = search_catalog_get_request_model self2 ->
  collections_get_request_model self1 = collections_get_request_model self2 ->
  truthy (get_extension self1 FieldsExtension)
  = truthy (get_extension self2 FieldsExtension) ->
  truthy (get_extension self1 CollectionSearchExtension)
  = truthy (get_extension self2 CollectionSearchExtension) ->
  item_collection_mixins self1 = item_collection_mixins self2 ->
  registered (register_core models self1) st
  = registered (register_core models self2) st.
Proof.
  intros Hrc Hsp Hsg Hcp Hcg Hcol Hf Hc Hmix.
  destruct st as [s c a [p l] i].
  run_registrations.
  rewrite Hrc, Hsp, Hsg, Hcp, Hcg, Hcol, Hf, Hc, Hmix.
  reflexivity.
Qed.

(** X1: looking an extension up in two lists put one after the other
    gives the match of the first list when it has one, and the match of
    the second list otherwise. *)
Theorem get_extension_app (self : t) (exts1 exts2 : list ApiExtension.t)
    (T : string) :
  get_extension (with_extensions self (exts1 ++ exts2)) T
  = match get_extension (with_extensions self exts1) T with
    | Some ext => Some ext
    | None => get_extension (with_extensions self exts2) T
    end.
Proof.
  unfold get_extension. cbn [extensions with_extensions].
  induction exts1 as [|x exts1 IH]; [reflexivity|].
  cbn [List.app first_instance]. destruct (isinstance x T); [reflexivity | exact IH].
Qed.

(** X2: [register_core] touches nothing but the router's routes: the
    settings, the client, the application, the settings holder and the
    router prefix are as before, the routes the router had are kept in
    front, and thirteen routes are added. *)
Theorem register_core_frame (models : ModelsModule) (self : t) (st st' : Store) :
  register_core models self st = inr (tt, st') ->
  settings st' = settings st
  /\ client st' = client st
  /\ app st' = app st
  /\ Settings_instance st' = Settings_instance st
  /\ APIRouter.prefix (router st') = APIRouter.prefix (router st)
  /\ exists added : list Route.t,
       APIRouter.routes (router st') = APIRouter.routes (router st) ++ added
       /\ length added = 13.
Proof.
  rewrite register_core_run.
  destruct (create_request_model models "ItemCollectionURI"
              (ItemCollectionUri models) (item_collection_mixins self))
    as [rm|] eqn:Hrm; [|discriminate].
  intros H. assert (Hst : st' = with_router st
             {| APIRouter.prefix := APIRouter.prefix (router st);
                APIRouter.routes :=
                  APIRouter.routes (router st)
                  ++ registered (register_core models self) st |})
    by congruence.
  rewrite Hst. cbn [with_router settings client app Settings_instance router
                    APIRouter.prefix APIRouter.routes].
  repeat (split; [reflexivity|]).
  eexists. split; [reflexivity|].
  eapply registered_core_length; eassumption.
Qed.

Lemma register_core_frame_witness :
  settings (with_router sample_st
              {| APIRouter.prefix := "/api";
                 APIRouter.routes :=
                   registered (register_core sample_models sample_self) sample_st |})
  = settings sample_st
  /\ client (with_router sample_st
               {| APIRouter.prefix := "/api";
                  APIRouter.routes :=
                    registered (register_core sample_models sample_self) sample_st |})
     = client sample_st.
Proof.
  destruct (@register_core_frame sample_models sample_self sample_st
              (with_router sample_st
                 {| APIRouter.prefix := "/api";
                    APIRouter.routes :=
                      registered (register_core sample_models sample_self)
                        sample_st |}))
    as (H1 & H2 & _).
  - vm_compute. reflexivity.
  - split; [exact H1 | exact H2].
Defined.

(** X3: [register_core] run twice on the same router registers every
    core route twice: nothing stops the second run, and the router then
    holds each (path, method) pair of the core routes two times. *)
Theorem register_core_twice (models : ModelsModule) (self : t) (st : Store)
    (request_model : RequestModel) :
  create_request_model models "ItemCollectionURI" (ItemCollectionUri models)
    (item_collection_mixins self) = Some request_model ->
  exists st2 : Store,
    bind (register_core models self) (fun _ => register_core models self) st
    = inr (tt, st2)
    /\ APIRouter.routes (router st2)
       = APIRouter.routes (router st)
         ++ registered (register_core models self) st
         ++ registered (register_core models self) st
    /\ ~ NoDup (table_keys (APIRouter.routes (router st2))).
Proof.
  intros Hrm. unfold bind. rewrite register_core_run, Hrm.
  rewrite register_core_run, Hrm.
  rewrite (@registered_core_settings models self st (with_router st _))
    by reflexivity.
  eexists. split; [reflexivity|].
  cbn [with_router router APIRouter.routes APIRouter.prefix].
  rewrite <- app_assoc. split; [reflexivity|].
  rewrite !table_keys_app. intros Hn.
  apply NoDup_app_remove_l in Hn. revert Hn.
  apply (@NoDup_app_common _
           ((APIRouter.prefix (router st) ++ "/")%string, "GET"));
    destruct st as [s c a [p l] i]; run_core Hrm; left; reflexivity.
Qed.

Lemma register_core_twice_witness :
  exists st2 : Store,
    bind (register_core sample_models sample_self)
      (fun _ => register_core sample_models sample_self) sample_st
    = inr (tt, st2)
    /\ APIRouter.routes (router st2)
       = APIRouter.routes (router sample_st)
         ++ registered (register_core sample_models sample_self) sample_st
         ++ registered (register_core sample_models sample_self) sample_st
    /\ ~ NoDup (table_keys (APIRouter.routes (router st2))).
Proof.
  apply (@register_core_twice sample_models sample_self sample_st
           sample_item_collection_model).
  vm_compute. reflexivity.
Defined.

(** X4: the item route, the four search routes and the item collection
    route always answer with [GeoJSONResponse]; the configured
    [response_class] is used by the other seven core routes only. *)
Theorem core_response_classes (models : ModelsModule) (self : t) (st : Store)
    (request_model : RequestModel) :
  create_request_model models "ItemCollectionURI" (ItemCollectionUri models)
    (item_collection_mixins self) = Some request_model ->
  map (fun r => (Route.name r, Route.response_class r))
    (registered (register_core models self) st)
  = [ ("Landing Page", response_class self);
      ("Conformance Classes", response_class self);
      ("Get Item", GeoJSONResponse);
      ("Search", GeoJSONResponse);
      ("Search", GeoJSONResponse);
      ("Catalog Item Search", GeoJSONResponse);
      ("Catalog Item Search", GeoJSONResponse);
      ("Get Collections", response_class self);
      ("Get Catalogs", response_class self);
      ("Get Collection", response_class self);
      ("Get Catalog", response_class self);
      ("Get ItemCollection", GeoJSONResponse);
      ("Get CatalogCollections", response_class self) ].
Proof.
  intros Hrm. destruct st as [s c a [p l] i]. run_core Hrm. reflexivity.
Qed.

Lemma core_response_classes_witness :
  map (fun r => (Route.name r, Route.response_class r))
    (registered (register_core sample_models sample_self) sample_st)
  = [ ("Landing Page", response_class sample_self);
      ("Conformance Classes", response_class sample_self);
      ("Get Item", GeoJSONResponse);
      ("Search", GeoJSONResponse);
      ("Search", GeoJSONResponse);
      ("Catalog Item Search", GeoJSONResponse);
      ("Catalog Item Search", GeoJSONResponse);
      ("Get Collections", response_class sample_self);
      ("Get Catalogs", response_class sample_self);
      ("Get Collection", response_class sample_self);
      ("Get Catalog", response_class sample_self);
      ("Get ItemCollection", GeoJSONResponse);
      ("Get CatalogCollections", response_class sample_self) ].
Proof.
  apply (@core_response_classes sample_models sample_self sample_st
           sample_item_collection_model).
  vm_compute. reflexivity.
Defined.

(** X5: every core route leaves out the attributes that are [None], and
    every core route but the landing page leaves out the attributes
    that were not set; the landing page keeps them. *)
Theorem core_exclude_flags (models : ModelsModule) (self : t) (st : Store)
    (request_model : RequestModel) :
  create_request_model models "ItemCollectionURI" (ItemCollectionUri models)
    (item_collection_mixins self) = Some request_model ->
  map exclude_flags (registered (register_core models self) st)
  = (false, true) :: repeat (true, true) 12.
Proof.
  intros Hrm. destruct st as [s c a [p l] i]. run_core Hrm. reflexivity.
Qed.

Lemma core_exclude_flags_witness :
  map exclude_flags
    (registered (register_core sample_models sample_self) sample_st)
  = (false, true) :: repeat (true, true) 12.
Proof.
  apply (@core_exclude_flags sample_models sample_self sample_st
           sample_item_collection_model).
  vm_compute. reflexivity.
Defined.

(** X6: the client method and the request model behind each core route:
    the search routes and the collections route decode with the models
    configured on the [StacApi], the item collection route with the
    model built by [create_request_model], the others with the fixed
    models. *)
Theorem core_endpoints (models : ModelsModule) (self : t) (st : Store)
    (request_model : RequestModel) :
  create_request_model models "ItemCollectionURI" (ItemCollectionUri models)
    (item_collection_mixins self) = Some request_model ->
  map Route.endpoint (registered (register_core models self) st)
  = [ create_async_endpoint landing_page (EmptyRequest models);
      create_async_endpoint conformance (EmptyRequest models);
      create_async_endpoint get_item (ItemUri models);
      create_async_endpoint post_global_search (search_post_request_model self);
      create_async_endpoint get_global_search (search_get_request_model self);
      create_async_endpoint post_search (search_catalog_post_request_model self);
      create_async_endpoint get_search (search_catalog_get_request_model self);
      create_async_endpoint all_collections (collections_get_request_model self);
      create_async_endpoint all_catalogs (EmptyRequest models);
      create_async_endpoint get_collection (CollectionUri models);
      create_async_endpoint get_catalog (CatalogUri models);
      create_async_endpoint item_collection request_model;
      create_async_endpoint get_catalog_collections (CatalogUri models) ].
Proof.
  intros Hrm. destruct st as [s c a [p l] i]. run_core Hrm. reflexivity.
Qed.

Lemma core_endpoints_witness :
  map Route.endpoint
    (registered (register_core sample_models sample_self) sample_st)
  = [ create_async_endpoint landing_page (EmptyRequest sample_models);
      create_async_endpoint conformance (EmptyRequest sample_models);
      create_async_endpoint get_item (ItemUri sample_models);
      create_async_endpoint post_global_search
        (search_post_request_model sample_self);
      create_async_endpoint get_global_search
        (search_get_request_model sample_self);
      create_async_endpoint post_search
        (search_catalog_post_request_model sample_self);
      create_async_endpoint get_search
        (search_catalog_get_request_model sample_self);
      create_async_endpoint all_collections
        (collections_get_request_model sample_self);
      create_async_endpoint all_catalogs (EmptyRequest sample_models);
      create_async_endpoint get_collection (CollectionUri sample_models);
      create_async_endpoint get_catalog (CatalogUri sample_models);
      create_async_endpoint item_collection sample_item_collection_model;
      create_async_endpoint get_catalog_collections (CatalogUri sample_models) ].
Proof.
  apply (@core_endpoints sample_models sample_self sample_st
           sample_item_collection_model).
  vm_compute. reflexivity.
Defined.

(** X7: the declared response models of the core routes when
    [enable_response_models] is set: the fields extension removes the
    schema of the four search routes only (the item collection route
    keeps [ItemCollection]), the collection-search extension removes the
    schema of [GET /collections] only (the collections of a catalog keep
    [Collections]), and the other routes have their fixed schema
    whatever the extensions. *)
Theorem core_response_models_enabled (models : ModelsModule) (self : t)
    (st : Store) (request_model : RequestModel) :
  create_request_model models "ItemCollectionURI" (ItemCollectionUri models)
    (item_collection_mixins self) = Some request_model ->
  ApiSettings.enable_response_models (settings st) = true ->
  let search :=
    if truthy (get_extension self FieldsExtension)
    then None else Some ItemCollection in
  let collections :=
    if truthy (get_extension self CollectionSearchExtension)
    then None else Some Collections in
  map Route.response_model (registered (register_core models self) st)
  = [ Some LandingPage; Some ConformanceClasses; Some Item;
      search; search; search; search;
      collections; Some Catalogs; Some Collection; Some Catalog;
      Some ItemCollection; Some Collections ].
Proof.
  destruct st as [s c a [p l] i]. cbn [settings].
  intros Hrm Hon. cbv zeta.
  run_core Hrm. rewrite Hon.
  destruct (truthy (get_extension self FieldsExtension));
    destruct (truthy (get_extension self CollectionSearchExtension));
    reflexivity.
Qed.

Lemma core_response_models_enabled_witness :
  map Route.response_model
    (registered (register_core sample_models sample_self) sample_st)
  = [ Some LandingPage; Some ConformanceClasses; Some Item;
      None; None; None; None;
      Some Collections; Some Catalogs; Some Collection; Some Catalog;
      Some ItemCollection; Some Collections ].
Proof.
  apply (@core_response_models_enabled sample_models sample_self sample_st
           sample_item_collection_model); vm_compute; reflexivity.
Defined.

(** X8: [collections_post_request_model] is never read: another value
    gives the same outcome of assembly and the same store, and the same
    OpenAPI schema. *)
Theorem collections_post_request_model_unused (models : ModelsModule)
    (get_openapi :
       string -> string -> string -> list Route.t -> list string -> JSON)
    (self : t) (st : Store) (docs : OpenAPI.t) (m : RequestModel) :
  __attrs_post_init__ models (with_collections_post_request_model self m) st
  = __attrs_post_init__ models self st
  /\ customize_openapi get_openapi
       (with_collections_post_request_model self m) st docs
     = customize_openapi get_openapi self st docs.
Proof.
  split; [|reflexivity].
  rewrite !post_init_run.
  change (item_collection_mixins (with_collections_post_request_model self m))
    with (item_collection_mixins self).
  destruct (create_request_model models "ItemCollectionURI"
              (ItemCollectionUri models) (item_collection_mixins self));
    [|reflexivity].
  destruct (APIRouter.prefix_accepted (APIRouter.prefix (router st)));
    [|reflexivity].
  unfold assembled, table_before_overlays.
  rewrite (@registered_core_attributes models
             (with_collections_post_request_model self m) self st)
    by reflexivity.
  reflexivity.
Qed.

(** X9: [register_core] depends on the extensions list through three
    things only: whether a fields extension is found, whether a
    collection-search extension is found, and the mixin list of the
    pagination extension found; lists that agree on these register the
    same routes. *)
Theorem register_core_extension_influence (models : ModelsModule) (self : t)
    (exts : list ApiExtension.t) (st : Store) :
  truthy (get_extension (with_extensions self exts) FieldsExtension)
  = truthy (get_extension self FieldsExtension) ->
  truthy (get_extension (with_extensions self exts) CollectionSearchExtension)
  = truthy (get_extension self CollectionSearchExtension) ->
  item_collection_mixins (with_extensions self exts)
  = item_collection_mixins self ->
  register_core models (with_extensions self exts) st
  = register_core models self st.
Proof.
  intros Hf Hc Hmix. rewrite !register_core_run, Hmix.
  rewrite (@registered_core_attributes models (with_extensions self exts)
             self st); try reflexivity; assumption.
Qed.

Lemma register_core_extension_influence_witness :
  register_core sample_models
    (with_extensions sample_self
       [sample_pagination_extension; sample_fields_extension_2;
        sample_pagination_extension_2])
    sample_st
  = register_core sample_models sample_self sample_st.
Proof.
  apply (@register_core_extension_influence sample_models sample_self
           [sample_pagination_extension; sample_fields_extension_2;
            sample_pagination_extension_2] sample_st);
    vm_compute; reflexivity.
Defined.

(** X10: after assembly the settings on the application state and in
    the process-wide holder are the [StacApi]'s settings as they are
    then, the fields extension's default includes in them; and the
    application state holds the router prefix. *)
Theorem post_init_application_state (models : ModelsModule) (self : t)
    (st st' : Store) :
  __attrs_post_init__ models self st = inr (tt, st') ->
  Settings_instance st' = Some (settings st')
  /\ FastAPI.state_settings (app st') = Some (settings st')
  /\ FastAPI.state_router_prefix (app st')
     = Some (APIRouter.prefix (router st))
  /\ settings st' = injected_settings self st.
Proof.
  intros H. apply post_init_success in H as [-> _].
  repeat split.
Qed.

Lemma post_init_application_state_witness :
  Settings_instance (assembled sample_models sample_self sample_st)
  = Some (settings (assembled sample_models sample_self sample_st))
  /\ FastAPI.state_settings (app (assembled sample_models sample_self sample_st))
     = Some (settings (assembled sample_models sample_self sample_st))
  /\ FastAPI.state_router_prefix
       (app (assembled sample_models sample_self sample_st))
     = Some (APIRouter.prefix (router sample_st))
  /\ settings (assembled sample_models sample_self sample_st)
     = injected_settings sample_self sample_st.
Proof.
  apply (@post_init_application_state sample_models sample_self sample_st).
  vm_compute. reflexivity.
Defined.

(** X11: the middlewares are added one by one in list order, each in
    front of the stack: after assembly the stack is the list reversed,
    then the middlewares the application already had. *)
Theorem post_init_middleware_order (models : ModelsModule) (self : t)
    (st st' : Store) :
  __attrs_post_init__ models self st = inr (tt, st') ->
  FastAPI.user_middleware (app st')
  = rev (middlewares self) ++ FastAPI.user_middleware (app st).
Proof.
  intros H. apply post_init_success in H as [-> _]. reflexivity.
Qed.

Lemma post_init_middleware_order_witness :
  FastAPI.user_middleware (app (assembled sample_models sample_self sample_st))
  = rev (middlewares sample_self) ++ FastAPI.user_middleware (app sample_st).
Proof.
  apply (@post_init_middleware_order sample_models sample_self sample_st).
  vm_compute. reflexivity.
Defined.

Example middleware_stack_reversed :
  FastAPI.user_middleware (app (assembled sample_models sample_self sample_st))
  = ["ProxyHeaderMiddleware"; "CORSMiddleware"; "BrotliMiddleware"].
Proof. reflexivity. Qed.



(** X14: [add_health_check] on its own: when the application state has
    no [router_prefix] it raises [AttributeError]; when the prefix there
    is refused by the router constructor (it does not start with [/], or
    it ends with [/]) it raises [AssertionError]; otherwise exactly one
    route is added at the end of the application's routes, the probe
    under that prefix, and the router, the settings and the client are
    untouched. *)
Theorem add_health_check_alone (self : t) (st : Store) :
  (FastAPI.state_router_prefix (app st) = None ->
   add_health_check self st = inl (AttributeError "router_prefix"))
  /\ forall router_prefix : string,
       FastAPI.state_router_prefix (app st) = Some router_prefix ->
       (APIRouter.prefix_accepted router_prefix = false ->
        add_health_check self st = inl AssertionError)
       /\ (APIRouter.prefix_accepted router_prefix = true ->
           exists st' : Store,
             add_health_check self st = inr (tt, st')
             /\ FastAPI.routes (app st')
                = FastAPI.routes (app st) ++ [ping_route router_prefix]
             /\ router st' = router st
             /\ settings st' = settings st
             /\ client st' = client st).
Proof.
  unfold add_health_check, bind, get, APIRouter.new.
  split.
  - intros ->. reflexivity.
  - intros p ->. split; intros ->.
    + reflexivity.
    + eexists. split; [reflexivity|]. repeat split.
Qed.

Lemma add_health_check_alone_witness :
  exists st' : Store,
    add_health_check sample_self (assembled sample_models sample_self sample_st)
    = inr (tt, st')
    /\ FastAPI.routes (app st')
       = FastAPI.routes (app (assembled sample_models sample_self sample_st))
         ++ [ping_route "/api"]
    /\ router st' = router (assembled sample_models sample_self sample_st)
    /\ settings st' = settings (assembled sample_models sample_self sample_st)
    /\ client st' = client (assembled sample_models sample_self sample_st).
Proof.
  apply (proj2 (proj2 (add_health_check_alone sample_self
                         (assembled sample_models sample_self sample_st))
                  "/api" eq_refl)).
  reflexivity.
Defined.

Example router_prefixes_refused :
  map APIRouter.prefix_accepted [""; "/api"; "/api/v1"; "api"; "/api/"; "/"]
  = [true; true; true; false; false; false].
Proof. reflexivity. Qed.

Example add_health_check_refused_prefix :
  add_health_check sample_self
    (with_app sample_st
       (FastAPI.with_state_router_prefix (app sample_st) "api"))
  = inl AssertionError.
Proof. reflexivity. Qed.

(** X15: once [customize_openapi] has stored a schema that is not
    empty, every later call returns that schema and stores nothing,
    whatever the title, the version, the description and the routes
    have become: the schema is generated once. *)
Theorem customize_openapi_cached
    (get_openapi :
       string -> string -> string -> list Route.t -> list string -> JSON)
    (self self' : t) (st st' : Store) (docs : OpenAPI.t) :
  fst (customize_openapi get_openapi self st docs) <> [] ->
  customize_openapi get_openapi self' st'
    (snd (customize_openapi get_openapi self st docs))
  = (fst (customize_openapi get_openapi self st docs),
     snd (customize_openapi get_openapi self st docs)).
Proof.
  unfold customize_openapi.
  destruct (OpenAPI.openapi_schema docs) as [[|entry rest]|] eqn:Hdocs;
    cbn [fst snd OpenAPI.openapi_schema OpenAPI.servers].
  - destruct (get_openapi (title self) (api_version self) (description self)
                (FastAPI.routes (app st)) (OpenAPI.servers docs));
      [intros H; contradiction | reflexivity].
  - rewrite Hdocs. reflexivity.
  - destruct (get_openapi (title self) (api_version self) (description self)
                (FastAPI.routes (app st)) (OpenAPI.servers docs));
      [intros H; contradiction | reflexivity].
Qed.

Lemma customize_openapi_cached_witness :
  customize_openapi sample_get_openapi
    (with_api_version sample_overlaid_api "9.9")
    (assembled sample_models sample_overlaid_api sample_st)
    (snd (customize_openapi sample_get_openapi sample_self sample_st sample_docs))
  = (fst (customize_openapi sample_get_openapi sample_self sample_st sample_docs),
     snd (customize_openapi sample_get_openapi sample_self sample_st sample_docs)).
Proof.
  apply (@customize_openapi_cached sample_get_openapi sample_self
           (with_api_version sample_overlaid_api "9.9") sample_st
           (assembled sample_models sample_overlaid_api sample_st) sample_docs).
  vm_compute. discriminate.
Defined.

(** X16: [customize_openapi] returns what the application holds
    afterwards and leaves the servers alone; a missing schema and an
    empty one are both generated anew, from the [StacApi]'s title,
    version and description and the application's routes and servers. *)
Theorem customize_openapi_result
    (get_openapi :
       string -> string -> string -> list Route.t -> list string -> JSON)
    (self : t) (st : Store) (docs : OpenAPI.t) :
  OpenAPI.openapi_schema (snd (customize_openapi get_openapi self st docs))
  = Some (fst (customize_openapi get_openapi self st docs))
  /\ OpenAPI.servers (snd (customize_openapi get_openapi self st docs))
     = OpenAPI.servers docs
  /\ ((OpenAPI.openapi_schema docs = None
       \/ OpenAPI.openapi_schema docs = Some []) ->
      fst (customize_openapi get_openapi self st docs)
      = get_openapi (title self) (api_version self) (description self)
          (FastAPI.routes (app st)) (OpenAPI.servers docs)).
Proof.
  unfold customize_openapi.
  destruct (OpenAPI.openapi_schema docs) as [[|entry rest]|] eqn:Hdocs;
    cbn [fst snd OpenAPI.openapi_schema OpenAPI.servers];
    repeat split; auto.
  intros [H|H]; discriminate.
Qed.

Lemma customize_openapi_result_witness :
  fst (customize_openapi sample_get_openapi sample_self sample_st
         {| OpenAPI.openapi_schema := Some []; OpenAPI.servers := [] |})
  = sample_get_openapi (title sample_self) (api_version sample_self)
      (description sample_self) (FastAPI.routes (app sample_st)) [].
Proof.
  apply (proj2 (proj2
           (@customize_openapi_result sample_get_openapi sample_self sample_st
              {| OpenAPI.openapi_schema := Some []; OpenAPI.servers := [] |}))).
  right. reflexivity.
Defined.
